(** * Request signing of the OmniHuman node

    A shallow embedding of [src/nodes/omni_human/__init__.py]: the
    AWS-Signature-Version-4-style [Authorization] header computed by
    [OmniHumanNode.generate_authorization_header] and its helpers.

    Conventions of the embedding.
    - A Python [str] is a [string]; every [ascii] stands for the code point
      of the same number, so the model covers the texts whose code points
      are below 256 (all of ASCII and the Latin-1 supplement). Such a text
      always has a UTF-8 form; the payload is also taken as any text
      ([text]), which [encode] may refuse.
    - A Python [bytes] is a [list byte].
    - A [Dict[str, str]] is an association list in insertion order whose keys
      are pairwise different ([wf_dict]); [query_params] and [headers] are
      two objects.
    - [hashlib] and [hmac] are executable models of SHA-256 (FIPS 180-4) and
      HMAC (RFC 2104) over [Z] with the 32-bit wrap-around written out.
    - The caller's header mapping and a log of the digest computations that
      were performed are threaded through a state and error monad. *)

From Stdlib Require Import ZArith NArith List String Ascii Bool Lia.
From Stdlib Require Import Init.Byte.
From Stdlib Require Import Sorting.Permutation Sorting.Sorted.
Import ListNotations.

Local Open Scope list_scope.
Local Open Scope string_scope.

(** ** Python values *)

Definition str := string.
Definition bytes := list byte.

Definition Z_of_byte (b : byte) : Z := Z.of_N (Byte.to_N b).

Definition byte_of_Z (z : Z) : byte :=
  match Byte.of_N (Z.to_N (z mod 256)) with
  | Some b => b
  | None => x00
  end.

Definition ord (c : ascii) : Z := Z.of_N (N_of_ascii c).
Definition chr (z : Z) : ascii := ascii_of_N (Z.to_N z).

(** ** [hashlib.sha256]: SHA-256 on 32-bit words held in [Z] *)

Module SHA256.

Local Open Scope list_scope.

Definition mask32 : Z := 0xffffffff.
Definition wrap (x : Z) : Z := Z.land x mask32.
Definition add32 (x y : Z) : Z := wrap (x + y).
Definition rotr (n x : Z) : Z :=
  Z.lor (Z.shiftr x n) (wrap (Z.shiftl x (32 - n))).
Definition not32 (x : Z) : Z := Z.lxor x mask32.

Definition Ch (x y z : Z) : Z := Z.lxor (Z.land x y) (Z.land (not32 x) z).
Definition Maj (x y z : Z) : Z :=
  Z.lxor (Z.lxor (Z.land x y) (Z.land x z)) (Z.land y z).
Definition Sigma0 (x : Z) : Z :=
  Z.lxor (Z.lxor (rotr 2 x) (rotr 13 x)) (rotr 22 x).
Definition Sigma1 (x : Z) : Z :=
  Z.lxor (Z.lxor (rotr 6 x) (rotr 11 x)) (rotr 25 x).
Definition sigma0 (x : Z) : Z :=
  Z.lxor (Z.lxor (rotr 7 x) (rotr 18 x)) (Z.shiftr x 3).
Definition sigma1 (x : Z) : Z :=
  Z.lxor (Z.lxor (rotr 17 x) (rotr 19 x)) (Z.shiftr x 10).

(** The round constants are the first 32 bits of the fractional parts of
    the cube roots of the first 64 primes, the initial chaining value those
    of the square roots of the first 8 (FIPS 180-4, 4.2.2 and 5.3.3). *)
Definition primes : list Z :=
  [ 2; 3; 5; 7; 11; 13; 17; 19; 23; 29; 31; 37; 41; 43; 47; 53;
    59; 61; 67; 71; 73; 79; 83; 89; 97; 101; 103; 107; 109; 113; 127; 131;
    137; 139; 149; 151; 157; 163; 167; 173; 179; 181; 191; 193; 197; 199;
    211; 223; 227; 229; 233; 239; 241; 251; 257; 263; 269; 271; 277; 281;
    283; 293; 307; 311 ]%Z.

(** The integer cube root, one bit at a time from bit [n - 1] down. *)
Fixpoint cbrt_bits (n : nat) (x r : Z) : Z :=
  match n with
  | O => r
  | S n' =>
      let r' := (r + 2 ^ Z.of_nat n')%Z in
      if (r' * r' * r' <=? x)%Z then cbrt_bits n' x r' else cbrt_bits n' x r
  end.

Definition frac_cbrt (p : Z) : Z := wrap (cbrt_bits 36 (p * 2 ^ 96) 0).
Definition frac_sqrt (p : Z) : Z := wrap (Z.sqrt (p * 2 ^ 64)).

Definition K : list Z := Eval vm_compute in map frac_cbrt primes.

(** The eight working variables, and the chaining value between blocks. *)
Record regs := Regs { ra : Z; rb : Z; rc : Z; rd : Z;
                      re : Z; rf : Z; rg : Z; rh : Z }.

Definition H0 : regs :=
  Eval vm_compute in
    Regs (frac_sqrt 2) (frac_sqrt 3) (frac_sqrt 5) (frac_sqrt 7)
         (frac_sqrt 11) (frac_sqrt 13) (frac_sqrt 17) (frac_sqrt 19).

(** Big-endian words of a block. *)
Fixpoint words_of (bs : list Z) : list Z :=
  match bs with
  | b3 :: b2 :: b1 :: b0 :: rest =>
      (Z.shiftl b3 24 + Z.shiftl b2 16 + Z.shiftl b1 8 + b0)%Z
        :: words_of rest
  | _ => []
  end.

(** The message schedule, newest word first while it is extended. *)
Fixpoint extend (n : nat) (rw : list Z) : list Z :=
  match n with
  | O => rw
  | S n' =>
      let w := add32 (add32 (sigma1 (nth 1 rw 0%Z)) (nth 6 rw 0%Z))
                     (add32 (sigma0 (nth 14 rw 0%Z)) (nth 15 rw 0%Z)) in
      extend n' (w :: rw)
  end.

Definition schedule (block : list Z) : list Z :=
  rev (extend 48 (rev (words_of block))).

Definition round (v : regs) (kw : Z * Z) : regs :=
  let t1 := add32 (add32 (add32 (rh v) (Sigma1 (re v)))
                         (add32 (Ch (re v) (rf v) (rg v)) (fst kw)))
                  (snd kw) in
  let t2 := add32 (Sigma0 (ra v)) (Maj (ra v) (rb v) (rc v)) in
  Regs (add32 t1 t2) (ra v) (rb v) (rc v)
       (add32 (rd v) t1) (re v) (rf v) (rg v).

Definition compress (h : regs) (block : list Z) : regs :=
  let v := fold_left round (combine K (schedule block)) h in
  Regs (add32 (ra h) (ra v)) (add32 (rb h) (rb v))
       (add32 (rc h) (rc v)) (add32 (rd h) (rd v))
       (add32 (re h) (re v)) (add32 (rf h) (rf v))
       (add32 (rg h) (rg v)) (add32 (rh h) (rh v)).

Fixpoint blocks (n : nat) (h : regs) (bs : list Z) : regs :=
  match n with
  | O => h
  | S n' => blocks n' (compress h (firstn 64 bs)) (skipn 64 bs)
  end.

(** [0x80], zeros up to 56 modulo 64, then the bit length on 64 bits. *)
Definition be_bytes (width : nat) (x : Z) : list Z :=
  map (fun i => Z.land (Z.shiftr x (8 * Z.of_nat i)) 0xff)
      (rev (seq 0 width)).

Definition pad (msg : list Z) : list Z :=
  let len := Z.of_nat (List.length msg) in
  let zeros := Z.to_nat ((55 - len) mod 64) in
  msg ++ [0x80%Z] ++ repeat 0%Z zeros ++ be_bytes 8 (8 * len).

Definition word_bytes (w : Z) : bytes :=
  [ byte_of_Z (Z.shiftr w 24); byte_of_Z (Z.shiftr w 16);
    byte_of_Z (Z.shiftr w 8); byte_of_Z w ].

Definition output (h : regs) : bytes :=
  word_bytes (ra h) ++ word_bytes (rb h) ++ word_bytes (rc h)
    ++ word_bytes (rd h) ++ word_bytes (re h) ++ word_bytes (rf h)
    ++ word_bytes (rg h) ++ word_bytes (rh h).

Definition digest (data : bytes) : bytes :=
  let padded := pad (map Z_of_byte data) in
  output (blocks (List.length padded / 64) H0 padded).

Definition digest_size : nat := 32.
Definition block_size : nat := 64.

End SHA256.

(** ** [hmac.new(key, data, hashlib.sha256).digest()] *)

Module HMAC.

Local Open Scope list_scope.

Definition xor_with (c : Z) (b : byte) : byte :=
  byte_of_Z (Z.lxor (Z_of_byte b) c).

Definition block_key (key : bytes) : bytes :=
  let k := if Nat.ltb SHA256.block_size (List.length key)
           then SHA256.digest key else key in
  k ++ repeat x00 (SHA256.block_size - List.length k).

Definition digest (key data : bytes) : bytes :=
  let k := block_key key in
  SHA256.digest (map (xor_with 0x5c) k
                   ++ SHA256.digest (map (xor_with 0x36) k ++ data)).

End HMAC.

(** ** [bytes.hex()] and [hexdigest()] *)

Definition digit_of (alphabet : string) (n : Z) : ascii :=
  match String.get (Z.to_nat n) alphabet with
  | Some c => c
  | None => "0"%char
  end.

Definition hex_byte (alphabet : string) (b : Z) : string :=
  String (digit_of alphabet (Z.shiftr b 4))
         (String (digit_of alphabet (Z.land b 15)) EmptyString).

Fixpoint hex (bs : bytes) : str :=
  match bs with
  | [] => ""
  | b :: rest => hex_byte "0123456789abcdef" (Z_of_byte b) ++ hex rest
  end.

(** ** [str.encode("utf-8")] for code points below 256 *)

Definition utf8_char (c : ascii) : bytes :=
  let n := ord c in
  if (n <? 128)%Z then [byte_of_Z n]
  else [byte_of_Z (Z.lor 0xc0 (Z.shiftr n 6));
        byte_of_Z (Z.lor 0x80 (Z.land n 0x3f))].

Fixpoint encode (s : str) : bytes :=
  match s with
  | EmptyString => []
  | String c rest => (utf8_char c ++ encode rest)%list
  end.

(** ** Text operations of [str] *)

Definition in_range (lo hi n : Z) : bool := ((lo <=? n) && (n <=? hi))%Z.

(** [str.lower()]: A-Z, and the capital letters of the Latin-1 supplement
    (U+00C0 to U+00DE without the multiplication sign U+00D7). *)
Definition lower_char (c : ascii) : ascii :=
  let n := ord c in
  if in_range 65 90 n || (in_range 192 222 n && negb (n =? 215)%Z)
  then chr (n + 32) else c.

Fixpoint lower (s : str) : str :=
  match s with
  | EmptyString => EmptyString
  | String c rest => String (lower_char c) (lower rest)
  end.

(** [str.isspace()] of one character: TAB to CR, FS to US, SPACE, NEL and
    the no-break space. *)
Definition isspace (c : ascii) : bool :=
  let n := ord c in
  in_range 9 13 n || in_range 28 32 n || (n =? 133)%Z || (n =? 160)%Z.

Fixpoint lstrip (s : str) : str :=
  match s with
  | EmptyString => EmptyString
  | String c rest => if isspace c then lstrip rest else s
  end.

Fixpoint rstrip (s : str) : str :=
  match s with
  | EmptyString => EmptyString
  | String c rest =>
      match rstrip rest with
      | EmptyString => if isspace c then EmptyString else String c EmptyString
      | r => String c r
      end
  end.

(** [str.strip()] *)
Definition strip (s : str) : str := rstrip (lstrip s).

(** [sep.join(parts)] *)
Definition join (sep : str) (parts : list str) : str := String.concat sep parts.

(** [s.split(sep)] for a non-empty [sep] (Python raises [ValueError] on an
    empty separator; both separators of the program are literals).
    [split_from sep skip s] is the first piece and the later pieces of [s]
    once [skip] more characters, the rest of a separator, are dropped. *)
Fixpoint split_from (sep : str) (skip : nat) (s : str) : str * list str :=
  match s with
  | EmptyString => (EmptyString, [])
  | String c rest =>
      match skip with
      | S k => split_from sep k rest
      | O =>
          if prefix sep s then
            let r := split_from sep (String.length sep - 1) rest in
            (EmptyString, fst r :: snd r)
          else
            let r := split_from sep 0 rest in
            (String c (fst r), snd r)
      end
  end.

Definition split (sep s : str) : list str :=
  let r := split_from sep 0 s in fst r :: snd r.

Fixpoint mem_char (c : ascii) (s : str) : bool :=
  match s with
  | EmptyString => false
  | String d rest => Ascii.eqb c d || mem_char c rest
  end.

Fixpoint filter_str (p : ascii -> bool) (s : str) : str :=
  match s with
  | EmptyString => EmptyString
  | String c rest => if p c then String c (filter_str p rest)
                     else filter_str p rest
  end.

(** [urllib.parse.quote(s, safe=...)]: the UTF-8 bytes of [s], each kept if
    it is an unreserved character or one of the ASCII characters of [safe],
    and written [%XX] with capital hexadecimal digits otherwise. *)
Definition always_safe : str :=
  "ABCDEFGHIJKLMNOPQRSTUVWXYZabcdefghijklmnopqrstuvwxyz0123456789_.-~".

Definition quote_byte (safe : str) (b : byte) : str :=
  let c := chr (Z_of_byte b) in
  if mem_char c (always_safe ++ filter_str (fun d => (ord d <? 128)%Z) safe)
  then String c EmptyString
  else String "%" (hex_byte "0123456789ABCDEF" (Z_of_byte b)).

Definition quote (s safe : str) : str :=
  String.concat "" (map (quote_byte safe) (encode s)).

(** ** Ordering and [sorted] *)

(** [a < b] on [str]: lexicographic on code points. *)
Definition str_lt (a b : str) : bool := String.ltb a b.

(** [a < b] on 2-tuples of [str]: the first components decide unless they
    are equal. *)
Definition tuple_lt (a b : str * str) : bool :=
  if String.eqb (fst a) (fst b) then str_lt (snd a) (snd b)
  else str_lt (fst a) (fst b).

Section Sorted.
Context {A : Type} (lt : A -> A -> bool).

Fixpoint insert (x : A) (l : list A) : list A :=
  match l with
  | [] => [x]
  | y :: l' => if lt y x then y :: insert x l' else x :: y :: l'
  end.

(** [sorted(l)]: stable, and decided by [<] alone, as Python's sort is.
    The elements are inserted from the last one to the first, each before
    the elements that are not smaller than it. *)
Definition sorted (l : list A) : list A := fold_right insert [] l.

(** [a <= b], said with [<]: [b] is not smaller than [a]. *)
Definition le_of (a b : A) : Prop := lt b a = false.
End Sorted.

(** [sorted(l, key=key)] *)
Definition sorted_key {A : Type} (key : A -> str) (l : list A) : list A :=
  sorted (fun a b => str_lt (key a) (key b)) l.

(** ** [Dict[str, str]] in insertion order *)

Definition dict := list (str * str).

Definition wf_dict (d : dict) : Prop := NoDup (map fst d).

Definition items (d : dict) : list (str * str) := d.

(** [d[k] = v]: an existing key keeps its place, a new key goes last. *)
Fixpoint setitem (k v : str) (d : dict) : dict :=
  match d with
  | [] => [(k, v)]
  | (k', v') :: d' =>
      if String.eqb k' k then (k', v) :: d' else (k', v') :: setitem k v d'
  end.

Fixpoint dict_get (k : str) (d : dict) : option str :=
  match d with
  | [] => None
  | (k', v') :: d' => if String.eqb k' k then Some v' else dict_get k d'
  end.

(** ** [datetime] and [strftime] *)

(** A naive [datetime], as [utcnow()] returns it. *)
Record datetime := Datetime
  { year : nat; month : nat; day : nat;
    hour : nat; minute : nat; second : nat; microsecond : nat }.

(** A zero-padded decimal field of [width] digits. *)
Fixpoint dec (width n : nat) : str :=
  match width with
  | O => EmptyString
  | S w => String (chr (48 + Z.of_nat (n / 10 ^ w mod 10))) (dec w n)
  end.

(** ** The state of a call: the caller's header mapping and the digests
    computed so far *)

Inductive exn :=
| ValueError (msg : str)
| IndexError (msg : str)
| UnicodeEncodeError (start stop : nat).

Inductive hash_call :=
| Sha256Call (data : bytes)
| HmacCall (key data : bytes).

Record world := World { headers : dict; hash_log : list hash_call }.

Inductive outcome (A : Type) :=
| Return (a : A)
| Raise (e : exn).
Arguments Return {A} a.
Arguments Raise {A} e.

Definition M (A : Type) : Type := world -> outcome A * world.

Definition ret {A} (a : A) : M A := fun w => (Return a, w).
Definition raise {A} (e : exn) : M A := fun w => (Raise e, w).
Definition bind {A B} (m : M A) (k : A -> M B) : M B :=
  fun w => match m w with
           | (Return a, w') => k a w'
           | (Raise e, w') => (Raise e, w')
           end.

Notation "x <- m ;; k" := (bind m (fun x => k))
  (at level 61, m at next level, right associativity).
Notation "m ;;; k" := (bind m (fun _ => k))
  (at level 61, right associativity).

Definition headers_items : M (list (str * str)) :=
  fun w => (Return (items (headers w)), w).

Definition headers_setitem (k v : str) : M unit :=
  fun w => (Return tt, World (setitem k v (headers w)) (hash_log w)).

Definition log_call (c : hash_call) : M unit :=
  fun w => (Return tt, World (headers w) (hash_log w ++ [c])%list).

(** [l[i]] *)
Definition getitem {A} (l : list A) (i : nat) : M A :=
  match nth_error l i with
  | Some a => ret a
  | None => raise (IndexError "list index out of range")
  end.

(** [hashlib.sha256(data).hexdigest()] *)
Definition sha256_hexdigest (data : bytes) : M str :=
  log_call (Sha256Call data) ;;; ret (hex (SHA256.digest data)).

(** ** [class OmniHumanNode] *)

Record OmniHumanNode := Node
  { access_key_id : option str;
    secret_access_key : option str }.

Definition SERVICE : str := "cv".
Definition REGION : str := "ap-singapore-1".

(** [__init__]: both credentials start unset. *)
Definition __init__ : OmniHumanNode := Node None None.

(** [not x] for an [Optional[str]]: [None] and the empty text are false. *)
Definition falsy (x : option str) : bool :=
  match x with
  | None => true
  | Some s => String.eqb s ""
  end.

(** The text of a credential that passed the check. *)
Definition str_value (x : option str) : str :=
  match x with
  | Some s => s
  | None => "None"
  end.

Definition _sha256 (data : bytes) : M bytes :=
  log_call (Sha256Call data) ;;; ret (SHA256.digest data).

Definition _hmac_sha256 (key data : bytes) : M bytes :=
  log_call (HmacCall key data) ;;; ret (HMAC.digest key data).

(** [dt.strftime("%Y%m%dT%H%M%SZ")], for the years of four digits. *)
Definition _get_amz_date (dt : datetime) : str :=
  dec 4 (year dt) ++ dec 2 (month dt) ++ dec 2 (day dt) ++ "T"
    ++ dec 2 (hour dt) ++ dec 2 (minute dt) ++ dec 2 (second dt) ++ "Z".

(** [dt.strftime("%Y%m%d")] *)
Definition _get_date_stamp (dt : datetime) : str :=
  dec 4 (year dt) ++ dec 2 (month dt) ++ dec 2 (day dt).

(** The literal [b"aws4_request"]. *)
Definition aws4_request : bytes :=
  [x61; x77; x73; x34; x5f; x72; x65; x71; x75; x65; x73; x74].

Definition _get_signing_key (secret_key date_stamp region service : str)
  : M bytes :=
  k_date <- _hmac_sha256 (encode ("AWS4" ++ secret_key)) (encode date_stamp) ;;
  k_region <- _hmac_sha256 k_date (encode region) ;;
  k_service <- _hmac_sha256 k_region (encode service) ;;
  k_signing <- _hmac_sha256 k_service aws4_request ;;
  ret k_signing.

Definition newline : str := String (chr 10) EmptyString.

Definition header_line (kv : str * str) : str :=
  lower (fst kv) ++ ":" ++ strip (snd kv) ++ newline.

Definition _create_canonical_request
  (method uri query_string : str) (headers : dict) (payload_hash : str)
  : str :=
  let sorted_headers := sorted tuple_lt (items headers) in
  let canonical_headers := join "" (map header_line sorted_headers) in
  let signed_headers :=
    join ";" (map (fun kv => lower (fst kv)) sorted_headers) in
  let canonical_request := method ++ newline in
  let canonical_request := canonical_request ++ (uri ++ newline) in
  let canonical_request := canonical_request ++ (query_string ++ newline) in
  let canonical_request :=
    canonical_request ++ (canonical_headers ++ newline) in
  let canonical_request := canonical_request ++ (signed_headers ++ newline) in
  let canonical_request := canonical_request ++ payload_hash in
  canonical_request.

Definition _create_string_to_sign
  (algorithm amz_date date_stamp region service canonical_request : str)
  : M str :=
  let credential_scope :=
    date_stamp ++ "/" ++ region ++ "/" ++ service ++ "/aws4_request" in
  let string_to_sign := algorithm ++ newline in
  let string_to_sign := string_to_sign ++ (amz_date ++ newline) in
  let string_to_sign := string_to_sign ++ (credential_scope ++ newline) in
  digest <- sha256_hexdigest (encode canonical_request) ;;
  let string_to_sign := string_to_sign ++ digest in
  ret string_to_sign.

(** The query string of lines 164-167: [k=v] pairs of the sorted items. *)
Definition query_pair (kv : str * str) : str :=
  quote (fst kv) "" ++ "=" ++ quote (snd kv) "".

Definition credentials_error : exn :=
  ValueError
    "access_key_id and secret_access_key must be set before generating authorization header".

(** [now] is the value of [datetime.datetime.utcnow()], read once after the
    credential check. The [headers] argument is the mapping of the world. *)
Definition generate_authorization_header
  (self : OmniHumanNode) (now : datetime)
  (method uri : str) (query_params : dict) (payload : str) : M str :=
  if falsy (secret_access_key self) || falsy (access_key_id self) then
    raise credentials_error
  else
    let amz_date := _get_amz_date now in
    let date_stamp := _get_date_stamp now in
    after_scheme <- getitem (split "://" uri) 1 ;;
    host <- getitem (split "/" after_scheme) 0 ;;
    headers_setitem "host" host ;;;
    headers_setitem "x-amz-date" amz_date ;;;
    payload_hash <- sha256_hexdigest (encode payload) ;;
    let sorted_params := sorted tuple_lt (items query_params) in
    let query_string := join "&" (map query_pair sorted_params) in
    hs <- headers_items ;;
    let canonical_request :=
      _create_canonical_request method uri query_string hs payload_hash in
    let algorithm := "HMAC-SHA256" in
    string_to_sign <-
      _create_string_to_sign algorithm amz_date date_stamp REGION SERVICE
        canonical_request ;;
    signing_key <-
      _get_signing_key (str_value (secret_access_key self)) date_stamp
        REGION SERVICE ;;
    signature <- _hmac_sha256 signing_key (encode string_to_sign) ;;
    let signature_hex := hex signature in
    let credential :=
      str_value (access_key_id self) ++ "/" ++ date_stamp ++ "/" ++ REGION
        ++ "/" ++ SERVICE ++ "/request" in
    hs' <- headers_items ;;
    let signed_headers :=
      join ";" (map (fun kv => lower (fst kv))
                    (sorted_key (fun x => lower (fst x)) hs')) in
    let authorization :=
      algorithm ++ " Credential=" ++ credential ++ ", "
        ++ "SignedHeaders=" ++ signed_headers ++ ", "
        ++ "Signature=" ++ signature_hex in
    ret authorization.

(** Running a call from the caller's mapping, with no digest computed yet. *)
Definition call {A} (m : M A) (hs : dict) : outcome A * world :=
  m (World hs []).

(** ** Vocabulary of the statements *)

(** The keys of two items are in strictly ascending order. *)
Definition key_lt (a b : str * str) : Prop := str_lt (fst a) (fst b) = true.

Definition other_key (k : str) (kv : str * str) : bool :=
  negb (String.eqb (fst kv) k).

(** A text has at least two pieces exactly when the separator occurs. *)
Definition occurs (sep s : str) : Prop :=
  exists before after, s = before ++ sep ++ after.

Fixpoint last_char (s : str) : option ascii :=
  match s with
  | EmptyString => None
  | String c EmptyString => Some c
  | String _ rest => last_char rest
  end.

Definition path_like (p : str) : Prop :=
  p = "" \/ exists p', p = String "/" p'.

(** A credential that is [None] or the empty text. *)
Definition empty_or_unset (x : option str) : Prop := x = None \/ x = Some "".

(** ** The values computed by a call *)

(** The caller's mapping once [host] and [x-amz-date] are set; [after] is
    what follows the first [://] of the uri. *)
Definition injected (now : datetime) (after : str) (hs : dict) : dict :=
  setitem "x-amz-date" (_get_amz_date now)
    (setitem "host" (fst (split_from "/" 0 after)) hs).

Definition query_string_of (query_params : dict) : str :=
  join "&" (map query_pair (sorted tuple_lt (items query_params))).

Definition canonical_of (method uri : str) (query_params : dict)
  (payload : str) (hs : dict) : str :=
  _create_canonical_request method uri (query_string_of query_params) hs
    (hex (SHA256.digest (encode payload))).

Definition string_to_sign_of
  (algorithm amz_date date_stamp region service canonical_request : str)
  : str :=
  join newline
    [ algorithm; amz_date;
      date_stamp ++ "/" ++ region ++ "/" ++ service ++ "/aws4_request";
      hex (SHA256.digest (encode canonical_request)) ].

Definition k_date_of (secret_key date_stamp : str) : bytes :=
  HMAC.digest (encode ("AWS4" ++ secret_key)) (encode date_stamp).
Definition k_region_of (secret_key date_stamp region : str) : bytes :=
  HMAC.digest (k_date_of secret_key date_stamp) (encode region).
Definition k_service_of (secret_key date_stamp region service : str) : bytes :=
  HMAC.digest (k_region_of secret_key date_stamp region) (encode service).

Definition signing_key_of (secret_key date_stamp region service : str)
  : bytes :=
  HMAC.digest
    (HMAC.digest
       (HMAC.digest
          (HMAC.digest (encode ("AWS4" ++ secret_key)) (encode date_stamp))
          (encode region))
       (encode service))
    aws4_request.

Definition signing_key_calls (secret_key date_stamp region service : str)
  : list hash_call :=
  [ HmacCall (encode ("AWS4" ++ secret_key)) (encode date_stamp);
    HmacCall (k_date_of secret_key date_stamp) (encode region);
    HmacCall (k_region_of secret_key date_stamp region) (encode service);
    HmacCall (k_service_of secret_key date_stamp region service)
             aws4_request ].

Definition signature_of (self : OmniHumanNode) (now : datetime)
  (canonical_request : str) : bytes :=
  HMAC.digest
    (signing_key_of (str_value (secret_access_key self))
       (_get_date_stamp now) REGION SERVICE)
    (encode (string_to_sign_of "HMAC-SHA256" (_get_amz_date now)
               (_get_date_stamp now) REGION SERVICE canonical_request)).

Definition calls_of (self : OmniHumanNode) (now : datetime)
  (payload canonical_request : str) : list hash_call :=
  ([ Sha256Call (encode payload); Sha256Call (encode canonical_request) ]
   ++ signing_key_calls (str_value (secret_access_key self))
        (_get_date_stamp now) REGION SERVICE
   ++ [ HmacCall
          (signing_key_of (str_value (secret_access_key self))
             (_get_date_stamp now) REGION SERVICE)
          (encode (string_to_sign_of "HMAC-SHA256" (_get_amz_date now)
                     (_get_date_stamp now) REGION SERVICE
                     canonical_request)) ])%list.

(** The names of the [SignedHeaders=] field. *)
Definition signed_names (hs : dict) : list str :=
  map (fun kv => lower (fst kv)) (sorted_key (fun x => lower (fst x)) hs).

Definition authorization_of (self : OmniHumanNode) (now : datetime)
  (names : list str) (signature : bytes) : str :=
  "HMAC-SHA256 Credential=" ++ str_value (access_key_id self) ++ "/"
    ++ _get_date_stamp now ++ "/" ++ REGION ++ "/" ++ SERVICE
    ++ "/request, SignedHeaders=" ++ join ";" names
    ++ ", Signature=" ++ hex signature.

(** ** A payload that is any Python text *)

(** Any Python [str], as the list of its code points, from 0 to 0x10FFFF:
    the 8-bit texts above and also the texts that [encode("utf-8")]
    refuses. *)
Definition text := list Z.

Definition text_of (s : str) : text := map ord (list_ascii_of_string s).

(** U+D800 to U+DFFF have no UTF-8 form. *)
Definition is_surrogate (cp : Z) : bool := in_range 0xd800 0xdfff cp.

Definition continuation (cp shift : Z) : byte :=
  byte_of_Z (Z.lor 0x80 (Z.land (Z.shiftr cp shift) 0x3f)).

(** The UTF-8 form of one code point that is no surrogate. *)
Definition utf8_point (cp : Z) : bytes :=
  if (cp <? 0x80)%Z then [byte_of_Z cp]
  else if (cp <? 0x800)%Z then
    [byte_of_Z (Z.lor 0xc0 (Z.shiftr cp 6)); continuation cp 0]
  else if (cp <? 0x10000)%Z then
    [byte_of_Z (Z.lor 0xe0 (Z.shiftr cp 12)); continuation cp 6;
     continuation cp 0]
  else
    [byte_of_Z (Z.lor 0xf0 (Z.shiftr cp 18)); continuation cp 12;
     continuation cp 6; continuation cp 0].

(** The number of surrogates a text starts with. *)
Fixpoint leading_surrogates (t : text) : nat :=
  match t with
  | [] => 0
  | cp :: rest => if is_surrogate cp then S (leading_surrogates rest) else 0
  end.

(** The first run of surrogates of a text, from position [i] on: where it
    starts and where it stops. *)
Fixpoint surrogate_run (t : text) (i : nat) : option (nat * nat) :=
  match t with
  | [] => None
  | cp :: rest =>
      if is_surrogate cp then Some (i, i + leading_surrogates t)
      else surrogate_run rest (S i)
  end.

(** [t.encode("utf-8")] *)
Definition encode_utf8 (t : text) : M bytes :=
  match surrogate_run t 0 with
  | Some (start, stop) => raise (UnicodeEncodeError start stop)
  | None => ret (flat_map utf8_point t)
  end.

(** [generate_authorization_header] with a payload that is any text; it
    is the function above whenever the payload is an 8-bit text
    ([generate_authorization_header_of_str]). *)
Definition generate_authorization_header_text
  (self : OmniHumanNode) (now : datetime)
  (method uri : str) (query_params : dict) (payload : text) : M str :=
  if falsy (secret_access_key self) || falsy (access_key_id self) then
    raise credentials_error
  else
    let amz_date := _get_amz_date now in
    let date_stamp := _get_date_stamp now in
    after_scheme <- getitem (split "://" uri) 1 ;;
    host <- getitem (split "/" after_scheme) 0 ;;
    headers_setitem "host" host ;;;
    headers_setitem "x-amz-date" amz_date ;;;
    payload_bytes <- encode_utf8 payload ;;
    payload_hash <- sha256_hexdigest payload_bytes ;;
    let sorted_params := sorted tuple_lt (items query_params) in
    let query_string := join "&" (map query_pair sorted_params) in
    hs <- headers_items ;;
    let canonical_request :=
      _create_canonical_request method uri query_string hs payload_hash in
    let algorithm := "HMAC-SHA256" in
    string_to_sign <-
      _create_string_to_sign algorithm amz_date date_stamp REGION SERVICE
        canonical_request ;;
    signing_key <-
      _get_signing_key (str_value (secret_access_key self)) date_stamp
        REGION SERVICE ;;
    signature <- _hmac_sha256 signing_key (encode string_to_sign) ;;
    let signature_hex := hex signature in
    let credential :=
      str_value (access_key_id self) ++ "/" ++ date_stamp ++ "/" ++ REGION
        ++ "/" ++ SERVICE ++ "/request" in
    hs' <- headers_items ;;
    let signed_headers :=
      join ";" (map (fun kv => lower (fst kv))
                    (sorted_key (fun x => lower (fst x)) hs')) in
    let authorization :=
      algorithm ++ " Credential=" ++ credential ++ ", "
        ++ "SignedHeaders=" ++ signed_headers ++ ", "
        ++ "Signature=" ++ signature_hex in
    ret authorization.

(** The canonical request and the digests of a call, from the bytes of the
    payload. *)
Definition canonical_of_bytes (method uri : str) (query_params : dict)
  (payload_bytes : bytes) (hs : dict) : str :=
  _create_canonical_request method uri (query_string_of query_params) hs
    (hex (SHA256.digest payload_bytes)).

Definition calls_of_bytes (self : OmniHumanNode) (now : datetime)
  (payload_bytes : bytes) (canonical_request : str) : list hash_call :=
  ([ Sha256Call payload_bytes; Sha256Call (encode canonical_request) ]
   ++ signing_key_calls (str_value (secret_access_key self))
        (_get_date_stamp now) REGION SERVICE
   ++ [ HmacCall
          (signing_key_of (str_value (secret_access_key self))
             (_get_date_stamp now) REGION SERVICE)
          (encode (string_to_sign_of "HMAC-SHA256" (_get_amz_date now)
                     (_get_date_stamp now) REGION SERVICE
                     canonical_request)) ])%list.

(** ** The model on concrete inputs *)

Definition test_node : OmniHumanNode := Node (Some "AKID") (Some "testsecret").
Definition test_now : datetime := Datetime 2024 1 1 0 0 0 0.

(** * The rest of the two files *)

(** ** [src/nodes/base.py]: [class ComfyUICustomNodeBase] *)

(** The values a class attribute holds here. *)
Inductive pyobj :=
| PyNone
| PyStr (s : str)
| PyTuple (elts : list str)
| PyObject (repr : str).

(** A class is the base itself or a class statement with a name, the
    namespace of its body and its one base class: the classes in a single
    chain of inheritance from the base. *)
Inductive pyclass :=
| ComfyUICustomNodeBase
| Subclass (name : str) (namespace : list (str * pyobj)) (parent : pyclass).

Inductive class_error :=
| TypeError (msg : str)
| AttributeError (msg : str).

Definition base_namespace : list (str * pyobj) :=
  [ ("INPUT_TYPES", PyObject "classmethod");
    ("RETURN_TYPES", PyNone); ("RETURN_NAMES", PyNone);
    ("FUNCTION", PyNone); ("CATEGORY", PyNone);
    ("__init_subclass__", PyObject "classmethod") ].

Fixpoint lookup (attr : str) (ns : list (str * pyobj)) : option pyobj :=
  match ns with
  | [] => None
  | (a, v) :: ns' => if String.eqb a attr then Some v else lookup attr ns'
  end.

(** [cls.attr]: the class body first, then the parents. *)
Fixpoint getattr (cls : pyclass) (attr : str) : option pyobj :=
  match cls with
  | ComfyUICustomNodeBase => lookup attr base_namespace
  | Subclass _ ns parent =>
      match lookup attr ns with
      | Some v => Some v
      | None => getattr parent attr
      end
  end.

Definition __name__ (cls : pyclass) : str :=
  match cls with
  | ComfyUICustomNodeBase => "ComfyUICustomNodeBase"
  | Subclass name _ _ => name
  end.

Definition class_attr (cls : pyclass) (attr : str) : class_error + pyobj :=
  match getattr cls attr with
  | Some v => inr v
  | None =>
      inl (AttributeError
             ("type object '" ++ __name__ cls ++ "' has no attribute '"
                ++ attr ++ "'"))
  end.

(** [value is None] *)
Definition is_none (v : pyobj) : bool :=
  match v with
  | PyNone => true
  | _ => false
  end.

(** The hook that runs when a class statement with [cls] as its new class
    and [kwargs] as its keyword arguments is executed.
    The call to the [__init_subclass__] of [super()] with the keyword
    arguments reaches the one of [object], which accepts no keyword. *)
Definition __init_subclass__ (cls : pyclass) (kwargs : list (str * pyobj))
  : class_error + unit :=
  match kwargs with
  | _ :: _ =>
      inl (TypeError
             (__name__ cls ++ ".__init_subclass__() takes no keyword arguments"))
  | [] =>
      if String.eqb (__name__ cls) "ComfyUICustomNodeBase" then inr tt
      else
        match class_attr cls "RETURN_TYPES" with
        | inl e => inl e
        | inr return_types =>
        match class_attr cls "RETURN_NAMES" with
        | inl e => inl e
        | inr return_names =>
        match class_attr cls "FUNCTION" with
        | inl e => inl e
        | inr function =>
        match class_attr cls "CATEGORY" with
        | inl e => inl e
        | inr category =>
            let required_attributes :=
              [ ("RETURN_TYPES", return_types);
                ("RETURN_NAMES", return_names);
                ("FUNCTION", function);
                ("CATEGORY", category) ] in
            let missing_attributes :=
              map fst (filter (fun av => is_none (snd av))
                              required_attributes) in
            match missing_attributes with
            | [] => inr tt
            | _ :: _ =>
                inl (TypeError
                       (__name__ cls
                          ++ " class must define the following attributes: "
                          ++ join ", " missing_attributes))
            end
        end end end end
  end.


(** The four attributes the hook looks at, in the order of its dictionary. *)
Definition required_names : list str :=
  ["RETURN_TYPES"; "RETURN_NAMES"; "FUNCTION"; "CATEGORY"].

Definition unset (cls : pyclass) (attr : str) : bool :=
  match getattr cls attr with
  | Some PyNone => true
  | _ => false
  end.

(** ** Vocabulary of the further statements *)

(** A [datetime] whose year has four digits. *)
Definition valid_datetime (dt : datetime) : Prop :=
  10 ^ 3 <= year dt < 10 ^ 4 /\ 1 <= month dt <= 12 /\ 1 <= day dt <= 31
  /\ hour dt <= 23 /\ minute dt <= 59 /\ second dt <= 59.

(** [int(s)] for a text of decimal digits. *)
Fixpoint undec (s : str) : nat :=
  match s with
  | EmptyString => 0
  | String c rest =>
      (Z.to_nat (ord c) - 48) * 10 ^ String.length rest + undec rest
  end.

Fixpoint all_chars (p : ascii -> bool) (s : str) : bool :=
  match s with
  | EmptyString => true
  | String c rest => p c && all_chars p rest
  end.

Definition is_lower_hex (c : ascii) : bool := mem_char c "0123456789abcdef".

(** Two header items with the same name and the same value up to the
    white space around it. *)
Definition same_up_to_strip (a b : str * str) : Prop :=
  fst a = fst b /\ strip (snd a) = strip (snd b).

(** A text that can stand between two [&]: not empty, and free of [&]. *)
Definition piece (s : str) : Prop := mem_char "&" s = false /\ s <> "".

(** [urllib.parse.unquote_to_bytes] on the texts [quote] produces. *)
Definition hex_value (c : ascii) : Z :=
  let n := ord c in
  if in_range 48 57 n then n - 48
  else if in_range 65 70 n then n - 55
  else n - 87.

Fixpoint unquote_to_bytes (s : str) : bytes :=
  match s with
  | EmptyString => []
  | String c rest =>
      if Ascii.eqb c "%" then
        match rest with
        | String h (String l rest') =>
            byte_of_Z (16 * hex_value h + hex_value l)
              :: unquote_to_bytes rest'
        | _ => []
        end
      else byte_of_Z (ord c) :: unquote_to_bytes rest
  end.

(** [bytes.decode("utf-8")] on the encodings of code points below 256. *)
Fixpoint decode (bs : bytes) : str :=
  match bs with
  | [] => EmptyString
  | b :: rest =>
      if (Z_of_byte b <? 128)%Z then String (chr (Z_of_byte b)) (decode rest)
      else
        match rest with
        | b' :: rest' =>
            String (chr (Z.lor (Z.shiftl (Z.land (Z_of_byte b) 0x1f) 6)
                               (Z.land (Z_of_byte b') 0x3f)))
                   (decode rest')
        | [] => EmptyString
        end
  end.

(** * Properties *)

Arguments SHA256.digest : simpl never.
Arguments HMAC.digest : simpl never.

(** ** Known answers of the primitives *)

Example sha256_constants :
  nth 0 SHA256.K 0%Z = 0x428a2f98%Z /\ nth 63 SHA256.K 0%Z = 0xc67178f2%Z
  /\ SHA256.ra SHA256.H0 = 0x6a09e667%Z /\ SHA256.rh SHA256.H0 = 0x5be0cd19%Z.
Proof. vm_compute. repeat split. Qed.

Example sha256_empty :
  hex (SHA256.digest (encode "")) =
  "e3b0c44298fc1c149afbf4c8996fb92427ae41e4649b934ca495991b7852b855".
Proof. vm_compute. reflexivity. Qed.

Example sha256_abc :
  hex (SHA256.digest (encode "abc")) =
  "ba7816bf8f01cfea414140de5dae2223b00361a396177a9cb410ff61f20015ad".
Proof. vm_compute. reflexivity. Qed.

Example sha256_two_blocks :
  hex (SHA256.digest
         (encode "abcdbcdecdefdefgefghfghighijhijkijkljklmklmnlmnomnopnopq")) =
  "248d6a61d20638b8e5c026930c3e6039a33ce45964ff2167f6ecedd419db06c1".
Proof. vm_compute. reflexivity. Qed.

Example hmac_sha256_fox :
  hex (HMAC.digest (encode "key")
         (encode "The quick brown fox jumps over the lazy dog")) =
  "f7bc83f430538424b13298e6aa6fb143ef4d59a14946175997479dbc2d1a3cd8".
Proof. vm_compute. reflexivity. Qed.

Example builtin_checks :
  quote "a b/" "" = "a%20b%2F" /\ quote "a/b" "/" = "a/b"
  /\ split "://" "a://b://c" = ["a"; "b"; "c"]
  /\ split "://" ":///" = [""; "/"]
  /\ split "://" "abc" = ["abc"]
  /\ split "XX" "aXXXb" = ["a"; "Xb"]
  /\ split "/" "" = [""]
  /\ strip "  x y  " = "x y"
  /\ lower "X-Amz-Date" = "x-amz-date"
  /\ sorted str_lt ["b"; "B"; "a"] = ["B"; "a"; "b"]
  /\ _get_amz_date test_now = "20240101T000000Z".
Proof. vm_compute. repeat split. Qed.

(** ** Texts *)

Lemma append_assoc (a b c : str) : (a ++ b) ++ c = a ++ (b ++ c).
Proof. induction a as [|x a IH]; simpl; [reflexivity | now rewrite IH]. Qed.

(** ** The order of [str] is a strict total order *)

Lemma ascii_compare_refl (a : ascii) : Ascii.compare a a = Eq.
Proof. apply N.compare_refl. Qed.

Lemma ascii_compare_lt_trans (a b c : ascii) :
  Ascii.compare a b = Lt -> Ascii.compare b c = Lt -> Ascii.compare a c = Lt.
Proof. unfold Ascii.compare. rewrite !N.compare_lt_iff. lia. Qed.

Lemma compare_refl (a : str) : String.compare a a = Eq.
Proof.
  induction a as [|x a IH]; simpl; [reflexivity|].
  now rewrite ascii_compare_refl.
Qed.

Lemma compare_lt_trans (a b c : str) :
  String.compare a b = Lt -> String.compare b c = Lt ->
  String.compare a c = Lt.
Proof.
  revert b c.
  induction a as [|x a IH]; intros [|y b] [|z c]; simpl; try easy.
  destruct (Ascii.compare x y) eqn:Exy; try easy.
  - apply Ascii.compare_eq_iff in Exy. subst y.
    destruct (Ascii.compare x z); try easy. apply IH.
  - intros _. destruct (Ascii.compare y z) eqn:Eyz; try easy.
    + apply Ascii.compare_eq_iff in Eyz. subst z. now rewrite Exy.
    + now rewrite (ascii_compare_lt_trans _ _ _ Exy Eyz).
Qed.

Lemma str_lt_trans (a b c : str) :
  str_lt a b = true -> str_lt b c = true -> str_lt a c = true.
Proof.
  unfold str_lt, String.ltb.
  destruct (String.compare a b) eqn:Eab; try easy.
  destruct (String.compare b c) eqn:Ebc; try easy.
  now rewrite (compare_lt_trans _ _ _ Eab Ebc).
Qed.

Lemma str_lt_asym (a b : str) : str_lt a b = true -> str_lt b a = false.
Proof.
  unfold str_lt, String.ltb. rewrite (String.compare_antisym b a).
  now destruct (String.compare a b).
Qed.

Lemma str_lt_total (a b : str) :
  str_lt a b = false -> str_lt b a = false -> a = b.
Proof.
  unfold str_lt, String.ltb. rewrite (String.compare_antisym b a).
  destruct (String.compare a b) eqn:E; try easy.
  intros _ _. now apply String.compare_eq_iff.
Qed.

(** The same for the order of the items of a mapping. *)

Lemma tuple_lt_trans (a b c : str * str) :
  tuple_lt a b = true -> tuple_lt b c = true -> tuple_lt a c = true.
Proof.
  destruct a as [ka va], b as [kb vb], c as [kc vc]. unfold tuple_lt. simpl.
  destruct (String.eqb_spec ka kb) as [Eab|Nab];
    destruct (String.eqb_spec kb kc) as [Ebc|Nbc];
    destruct (String.eqb_spec ka kc) as [Eac|Nac];
    subst; try congruence; try apply str_lt_trans.
  intros H1 H2. now rewrite (str_lt_asym _ _ H1) in H2.
Qed.

Lemma tuple_lt_asym (a b : str * str) :
  tuple_lt a b = true -> tuple_lt b a = false.
Proof.
  unfold tuple_lt. rewrite (String.eqb_sym (fst b) (fst a)).
  destruct (String.eqb (fst a) (fst b)); apply str_lt_asym.
Qed.

Lemma tuple_lt_total (a b : str * str) :
  tuple_lt a b = false -> tuple_lt b a = false -> a = b.
Proof.
  unfold tuple_lt. rewrite (String.eqb_sym (fst b) (fst a)).
  destruct (String.eqb_spec (fst a) (fst b)) as [E|N]; intros H1 H2.
  - destruct a, b; simpl in *. f_equal; [assumption|].
    now apply str_lt_total.
  - exfalso. apply N. now apply str_lt_total.
Qed.

(** ** [sorted] *)

Section SortedFacts.
Context {A : Type} (lt : A -> A -> bool).
Hypothesis lt_trans :
  forall a b c, lt a b = true -> lt b c = true -> lt a c = true.
Hypothesis lt_asym : forall a b, lt a b = true -> lt b a = false.
Hypothesis lt_total : forall a b, lt a b = false -> lt b a = false -> a = b.

Lemma insert_perm (x : A) (l : list A) : Permutation (insert lt x l) (x :: l).
Proof.
  induction l as [|y l IH]; simpl; [reflexivity|].
  destruct (lt y x); [|reflexivity].
  rewrite IH. apply perm_swap.
Qed.

Lemma sorted_perm (l : list A) : Permutation (sorted lt l) l.
Proof.
  induction l as [|x l IH]; simpl; [reflexivity|].
  rewrite insert_perm. now constructor.
Qed.

Lemma le_lt_trans (a b c : A) :
  lt b a = false -> lt b c = true -> lt a c = true.
Proof.
  intros Hba Hbc. destruct (lt a b) eqn:Hab.
  - eauto.
  - now rewrite (lt_total _ _ Hab Hba).
Qed.

Lemma insert_comm (x y : A) (l : list A) :
  insert lt x (insert lt y l) = insert lt y (insert lt x l).
Proof.
  induction l as [|z l IH]; simpl.
  - destruct (lt y x) eqn:Hyx, (lt x y) eqn:Hxy; try reflexivity.
    + now rewrite (lt_asym _ _ Hyx) in Hxy.
    + now rewrite (lt_total _ _ Hyx Hxy).
  - destruct (lt z y) eqn:Hzy, (lt z x) eqn:Hzx; simpl;
      rewrite ?Hzy, ?Hzx.
    + now rewrite IH.
    + now rewrite (le_lt_trans _ _ _ Hzx Hzy).
    + now rewrite (le_lt_trans _ _ _ Hzy Hzx).
    + destruct (lt y x) eqn:Hyx, (lt x y) eqn:Hxy; simpl;
        rewrite ?Hzy, ?Hzx; try reflexivity.
      * now rewrite (lt_asym _ _ Hyx) in Hxy.
      * now rewrite (lt_total _ _ Hyx Hxy).
Qed.

(** The result of [sorted] does not depend on the order of its input. *)
Lemma sorted_of_perm (l l' : list A) :
  Permutation l l' -> sorted lt l = sorted lt l'.
Proof.
  induction 1; simpl.
  - reflexivity.
  - now f_equal.
  - apply insert_comm.
  - congruence.
Qed.

Lemma insert_Sorted (x : A) (l : list A) :
  Sorted (le_of lt) l -> Sorted (le_of lt) (insert lt x l).
Proof.
  induction 1 as [|y l Hs IH Hd]; simpl.
  - repeat constructor.
  - destruct (lt y x) eqn:Hyx.
    + constructor; [assumption|].
      destruct Hd as [|z l Hz]; simpl.
      * constructor. now apply lt_asym.
      * destruct (lt z x); constructor; [assumption | now apply lt_asym].
    + repeat constructor; assumption.
Qed.

Lemma sorted_Sorted (l : list A) : Sorted (le_of lt) (sorted lt l).
Proof.
  induction l as [|x l IH]; simpl; [constructor | now apply insert_Sorted].
Qed.
End SortedFacts.

Lemma map_insert_key {A : Type} (key : A -> str) (x : A) (l : list A) :
  map key (insert (fun a b => str_lt (key a) (key b)) x l)
  = insert str_lt (key x) (map key l).
Proof.
  induction l as [|y l IH]; simpl; [reflexivity|].
  destruct (str_lt (key y) (key x)); simpl; [now rewrite IH | reflexivity].
Qed.

(** The keys of a list sorted by key are the sorted keys. *)
Lemma map_sorted_key {A : Type} (key : A -> str) (l : list A) :
  map key (sorted_key key l) = sorted str_lt (map key l).
Proof.
  unfold sorted_key.
  induction l as [|x l IH]; simpl; [reflexivity|].
  now rewrite map_insert_key, IH.
Qed.

Lemma sorted_str_of_perm (l l' : list str) :
  Permutation l l' -> sorted str_lt l = sorted str_lt l'.
Proof.
  apply sorted_of_perm;
    [apply str_lt_trans | apply str_lt_asym | apply str_lt_total].
Qed.

Lemma sorted_items_of_perm (d d' : dict) :
  Permutation d d' -> sorted tuple_lt d = sorted tuple_lt d'.
Proof.
  apply sorted_of_perm;
    [apply tuple_lt_trans | apply tuple_lt_asym | apply tuple_lt_total].
Qed.

Lemma key_lt_trans (a b c : str * str) : key_lt a b -> key_lt b c -> key_lt a c.
Proof. unfold key_lt. apply str_lt_trans. Qed.

Lemma Sorted_keys (l : dict) :
  NoDup (map fst l) -> Sorted (le_of tuple_lt) l -> Sorted key_lt l.
Proof.
  intros Hnd Hs. induction Hs as [|a l Hs IH Hd]; constructor.
  - apply IH. now inversion Hnd.
  - destruct Hd as [|b l Hab]; constructor.
    unfold le_of, tuple_lt in Hab. unfold key_lt.
    inversion Hnd as [|? ? Hnotin _]; subst. simpl in Hnotin.
    destruct (String.eqb_spec (fst b) (fst a)) as [E|N].
    + exfalso. apply Hnotin. left. assumption.
    + destruct (str_lt (fst a) (fst b)) eqn:Hlt; [reflexivity|].
      exfalso. apply N. now apply str_lt_total.
Qed.

Lemma sorted_items_ascending (d : dict) :
  wf_dict d -> StronglySorted key_lt (sorted tuple_lt (items d)).
Proof.
  intros Hwf. apply Sorted_StronglySorted.
  - intros a b c. apply key_lt_trans.
  - apply Sorted_keys.
    + apply (Permutation_NoDup (l := map fst d)); [|exact Hwf].
      apply Permutation_map. symmetry. apply sorted_perm.
    + apply sorted_Sorted. apply tuple_lt_asym.
Qed.

(** ** Mappings *)

Lemma filter_absent (k : str) (d : dict) :
  ~ In k (map fst d) -> filter (other_key k) d = d.
Proof.
  induction d as [|[k' v'] d IH]; simpl; [reflexivity|].
  intros Hn. unfold other_key at 1. simpl.
  destruct (String.eqb_spec k' k) as [E|N]; simpl.
  - exfalso. apply Hn. now left.
  - f_equal. apply IH. intros Hin. apply Hn. now right.
Qed.

Lemma filter_of_perm {A : Type} (p : A -> bool) (l l' : list A) :
  Permutation l l' -> Permutation (filter p l) (filter p l').
Proof.
  induction 1 as [|x l l' _ IH|x y l|l l' l'' _ IH1 _ IH2]; simpl.
  - constructor.
  - destruct (p x); [now constructor | assumption].
  - destruct (p x), (p y); try reflexivity. apply perm_swap.
  - now transitivity (filter p l').
Qed.

Lemma setitem_perm (k v : str) (d : dict) :
  wf_dict d -> Permutation (setitem k v d) ((k, v) :: filter (other_key k) d).
Proof.
  unfold wf_dict.
  induction d as [|[k' v'] d IH]; simpl; intros Hnd; [reflexivity|].
  inversion Hnd as [|? ? Hnotin Hnd']; subst.
  unfold other_key at 1. simpl.
  destruct (String.eqb_spec k' k) as [E|N]; simpl.
  - subst k'. now rewrite filter_absent.
  - rewrite (IH Hnd'). apply perm_swap.
Qed.

Lemma setitem_of_perm (k v : str) (d d' : dict) :
  wf_dict d -> Permutation d d' ->
  Permutation (setitem k v d) (setitem k v d').
Proof.
  intros Hwf Hp.
  assert (Hwf' : wf_dict d').
  { apply (Permutation_NoDup (l := map fst d)); [|exact Hwf].
    now apply Permutation_map. }
  rewrite (setitem_perm k v d Hwf), (setitem_perm k v d' Hwf').
  constructor. now apply filter_of_perm.
Qed.

Lemma setitem_keys (k v : str) (d : dict) :
  map fst (setitem k v d)
  = if existsb (String.eqb k) (map fst d) then map fst d
    else (map fst d ++ [k])%list.
Proof.
  induction d as [|[k' v'] d IH]; simpl; [reflexivity|].
  rewrite (String.eqb_sym k k').
  destruct (String.eqb k' k); simpl; [reflexivity|].
  rewrite IH. now destruct (existsb (String.eqb k) (map fst d)).
Qed.

Lemma setitem_wf (k v : str) (d : dict) : wf_dict d -> wf_dict (setitem k v d).
Proof.
  unfold wf_dict. intros Hnd. rewrite setitem_keys.
  destruct (existsb (String.eqb k) (map fst d)) eqn:E; [assumption|].
  apply (Permutation_NoDup (l := k :: map fst d)).
  - apply Permutation_cons_append.
  - constructor; [|assumption].
    intros Hin.
    assert (existsb (String.eqb k) (map fst d) = true); [|congruence].
    apply existsb_exists. exists k. split; [assumption|apply String.eqb_refl].
Qed.

Lemma dict_get_setitem (k v : str) (d : dict) :
  dict_get k (setitem k v d) = Some v.
Proof.
  induction d as [|[k' v'] d IH]; simpl.
  - now rewrite String.eqb_refl.
  - destruct (String.eqb k' k) eqn:E; simpl; now rewrite E.
Qed.

Lemma dict_get_setitem_other (k k' v : str) (d : dict) :
  k <> k' -> dict_get k (setitem k' v d) = dict_get k d.
Proof.
  intros Hne.
  induction d as [|[k0 v0] d IH]; simpl.
  - destruct (String.eqb_spec k' k); congruence.
  - destruct (String.eqb_spec k0 k') as [E|N]; simpl.
    + subst k0. destruct (String.eqb_spec k' k); congruence.
    + now rewrite IH.
Qed.

(** ** Digests are 32 bytes long *)

Lemma sha256_digest_length (data : bytes) :
  List.length (SHA256.digest data) = SHA256.digest_size.
Proof. unfold SHA256.digest, SHA256.output. reflexivity. Qed.

Lemma hmac_digest_length (key data : bytes) :
  List.length (HMAC.digest key data) = SHA256.digest_size.
Proof. unfold HMAC.digest. apply sha256_digest_length. Qed.

(** ** [split] *)

Lemma prefix_append (p s : str) : prefix p (p ++ s) = true.
Proof.
  induction p as [|c p IH]; simpl; [now destruct s|].
  destruct (ascii_dec c c); [assumption | congruence].
Qed.

Lemma prefix_inv (p s : str) :
  prefix p s = true -> exists rest, s = p ++ rest.
Proof.
  revert s. induction p as [|c p IH]; intros s H.
  - exists s. reflexivity.
  - destruct s as [|d s]; simpl in H; [discriminate|].
    destruct (ascii_dec c d) as [E|N]; [|discriminate].
    destruct (IH s H) as [rest Hr]. exists rest. simpl. congruence.
Qed.

Lemma split_occurs (sep s : str) :
  sep <> "" -> occurs sep s -> snd (split_from sep 0 s) <> [].
Proof.
  intros Hsep (before & after & ->).
  induction before as [|c before IH].
  - destruct sep as [|c sep]; [congruence|].
    change ("" ++ String c sep ++ after) with (String c (sep ++ after)).
    cbn [split_from].
    assert (Hp : prefix (String c sep) (String c (sep ++ after)) = true)
      by apply (prefix_append (String c sep) after).
    rewrite Hp. simpl. discriminate.
  - change (String c before ++ sep ++ after)
      with (String c (before ++ sep ++ after)).
    cbn [split_from].
    destruct (prefix sep (String c (before ++ sep ++ after)));
      simpl; [discriminate | exact IH].
Qed.

Lemma split_second_piece (sep s : str) :
  nth_error (split sep s) 1 = hd_error (snd (split_from sep 0 s)).
Proof. unfold split. simpl. now destruct (snd (split_from sep 0 s)). Qed.

(** The host of [scheme://host/path]. *)

Lemma mem_char_cons (c d : ascii) (s : str) :
  mem_char c (String d s) = false -> c <> d /\ mem_char c s = false.
Proof.
  cbn [mem_char]. intros H. apply orb_false_iff in H. destruct H as [Hc Hm].
  split; [|assumption]. now apply Ascii.eqb_neq.
Qed.

Lemma split_scheme (scheme rest : str) :
  mem_char ":" scheme = false ->
  split_from "://" 0 (scheme ++ "://" ++ rest)
  = (scheme, fst (split_from "://" 0 rest) :: snd (split_from "://" 0 rest)).
Proof.
  induction scheme as [|c scheme IH]; intros Hm.
  - destruct rest; reflexivity.
  - apply mem_char_cons in Hm. destruct Hm as [Hc Hm].
    change (String c scheme ++ "://" ++ rest)
      with (String c (scheme ++ "://" ++ rest)).
    cbn [split_from prefix].
    destruct (ascii_dec ":" c) as [E|N]; [contradiction|].
    rewrite (IH Hm). reflexivity.
Qed.

Lemma first_piece_of_authority (host path : str) :
  mem_char "/" host = false -> last_char host <> Some ":"%char ->
  path_like path ->
  exists q, path_like q /\
            fst (split_from "://" 0 (host ++ path)) = host ++ q.
Proof.
  intros Hm Hl Hp. induction host as [|c host IH].
  - destruct Hp as [-> | [p' ->]].
    + exists "". split; [now left | reflexivity].
    + simpl. exists (String "/" (fst (split_from "://" 0 p'))).
      split; [right; eauto | reflexivity].
  - apply mem_char_cons in Hm. destruct Hm as [Hc Hm].
    assert (Hl' : last_char host <> Some ":"%char).
    { destruct host; [discriminate | exact Hl]. }
    destruct (IH Hm Hl') as (q & Hq & Hfst).
    exists q. split; [assumption|].
    change (String c host ++ path) with (String c (host ++ path)).
    assert (Hpre : prefix "://" (String c (host ++ path)) = false).
    { cbn [prefix]. destruct (ascii_dec ":" c) as [E|N]; [|reflexivity].
      subst c. destruct host as [|d host].
      - exfalso. now apply Hl.
      - apply mem_char_cons in Hm. destruct Hm as [Hd _].
        change (String d host ++ path) with (String d (host ++ path)).
        cbn [prefix].
        destruct (ascii_dec "/" d) as [E|N]; [contradiction | reflexivity]. }
    cbn [split_from]. rewrite Hpre. simpl. now rewrite Hfst.
Qed.

Lemma first_piece_of_host (host q : str) :
  mem_char "/" host = false -> path_like q ->
  fst (split_from "/" 0 (host ++ q)) = host.
Proof.
  intros Hm Hq. induction host as [|c host IH].
  - destruct Hq as [-> | [q' ->]]; [reflexivity | destruct q'; reflexivity].
  - apply mem_char_cons in Hm. destruct Hm as [Hc Hm].
    change (String c host ++ q) with (String c (host ++ q)).
    cbn [split_from prefix].
    destruct (ascii_dec "/" c) as [E|N]; [contradiction|].
    simpl. now rewrite (IH Hm).
Qed.

(** ** Running the helpers *)

Lemma string_to_sign_run
  (algorithm amz_date date_stamp region service canonical_request : str)
  (w : world) :
  _create_string_to_sign algorithm amz_date date_stamp region service
    canonical_request w
  = (Return (string_to_sign_of algorithm amz_date date_stamp region service
               canonical_request),
     World (headers w)
           (hash_log w ++ [Sha256Call (encode canonical_request)])%list).
Proof.
  unfold _create_string_to_sign, string_to_sign_of, sha256_hexdigest,
    bind, log_call, ret, join.
  cbn [String.concat headers hash_log].
  now rewrite !append_assoc.
Qed.

Lemma signing_key_run (secret_key date_stamp region service : str)
  (w : world) :
  _get_signing_key secret_key date_stamp region service w
  = (Return (signing_key_of secret_key date_stamp region service),
     World (headers w)
           (hash_log w
              ++ signing_key_calls secret_key date_stamp region service)%list).
Proof.
  unfold _get_signing_key, _hmac_sha256, bind, log_call, ret,
    signing_key_of, signing_key_calls, k_service_of, k_region_of, k_date_of.
  cbn [headers hash_log]. now rewrite <- !app_assoc.
Qed.

Lemma authorization_text (self : OmniHumanNode) (now : datetime)
  (names : list str) (signature : bytes) :
  "HMAC-SHA256" ++ " Credential="
    ++ (str_value (access_key_id self) ++ "/" ++ _get_date_stamp now ++ "/"
          ++ REGION ++ "/" ++ SERVICE ++ "/request")
    ++ ", " ++ "SignedHeaders=" ++ join ";" names ++ ", " ++ "Signature="
    ++ hex signature
  = authorization_of self now names signature.
Proof.
  unfold authorization_of. rewrite !append_assoc. reflexivity.
Qed.

(** The three ways a call ends. *)
Lemma generate_authorization_header_run
  (self : OmniHumanNode) (now : datetime) (method uri : str)
  (query_params : dict) (payload : str) (w : world) :
  generate_authorization_header self now method uri query_params payload w
  = if falsy (secret_access_key self) || falsy (access_key_id self)
    then (Raise credentials_error, w)
    else
      match nth_error (split "://" uri) 1 with
      | None => (Raise (IndexError "list index out of range"), w)
      | Some after =>
          let hs := injected now after (headers w) in
          let cr := canonical_of method uri query_params payload hs in
          (Return (authorization_of self now (signed_names hs)
                     (signature_of self now cr)),
           World hs (hash_log w ++ calls_of self now payload cr)%list)
      end.
Proof.
  unfold generate_authorization_header.
  destruct (falsy (secret_access_key self) || falsy (access_key_id self));
    [reflexivity|].
  unfold bind at 1. unfold getitem at 1.
  destruct (nth_error (split "://" uri) 1) as [after|]; [|reflexivity].
  unfold ret at 1, bind at 1.
  unfold split at 1, getitem at 1. cbn [nth_error].
  unfold ret at 1.
  repeat progress
    (unfold bind, headers_setitem, headers_items, sha256_hexdigest, log_call,
       ret, _hmac_sha256;
     cbn beta iota zeta; cbn [headers hash_log];
     rewrite ?string_to_sign_run, ?signing_key_run).
  rewrite authorization_text.
  unfold calls_of, canonical_of, query_string_of, injected, signature_of,
    signed_names, items.
  cbn zeta. rewrite <- !app_assoc. reflexivity.
Qed.

Lemma header_block_ends_with_newline (l : dict) :
  l <> [] -> exists block, join "" (map header_line l) = block ++ newline.
Proof.
  induction l as [|x l IH]; [congruence|]. intros _.
  destruct l as [|y l].
  - exists (lower (fst x) ++ ":" ++ strip (snd x)).
    unfold join, header_line. cbn [map String.concat].
    now rewrite !append_assoc.
  - destruct IH as [block Hb]; [discriminate|].
    exists (header_line x ++ block).
    unfold join in *. cbn [map String.concat] in *.
    rewrite Hb. cbn [append]. now rewrite append_assoc.
Qed.

(** ** The claims *)

(** C4: the signing key is the chain of four HMAC-SHA256 computations
    keyed first by the UTF-8 bytes of ["AWS4" + secret_key] and then, each
    time, by the digest of the step before, over the UTF-8 bytes of the date
    stamp, the region, the service, and over [aws4_request]; the call
    performs exactly these four computations and its result is 32 bytes
    long. *)
Theorem signing_key_chain (secret_key date_stamp region service : str)
  (w : world) :
  let secret := encode ("AWS4" ++ secret_key) in
  let k_date := HMAC.digest secret (encode date_stamp) in
  let k_region := HMAC.digest k_date (encode region) in
  let k_service := HMAC.digest k_region (encode service) in
  let k_signing := HMAC.digest k_service (encode "aws4_request") in
  _get_signing_key secret_key date_stamp region service w
  = (Return k_signing,
     World (headers w)
       (hash_log w
          ++ [ HmacCall secret (encode date_stamp);
               HmacCall k_date (encode region);
               HmacCall k_region (encode service);
               HmacCall k_service (encode "aws4_request") ])%list)
  /\ List.length k_signing = 32.
Proof.
  cbn zeta. split.
  - rewrite signing_key_run. reflexivity.
  - apply hmac_digest_length.
Qed.

(** C6: the string to sign is four texts joined by newlines: the algorithm
    tag, the timestamp, the credential scope
    [date_stamp/region/service/aws4_request], and the hexadecimal SHA-256
    digest of the UTF-8 bytes of the canonical request; that digest is the
    one computation the builder performs. *)
Theorem string_to_sign_lines
  (algorithm amz_date date_stamp region service canonical_request : str)
  (w : world) :
  _create_string_to_sign algorithm amz_date date_stamp region service
    canonical_request w
  = (Return
       (join newline
          [ algorithm; amz_date;
            date_stamp ++ "/" ++ region ++ "/" ++ service ++ "/aws4_request";
            hex (SHA256.digest (encode canonical_request)) ]),
     World (headers w)
       (hash_log w ++ [Sha256Call (encode canonical_request)])%list).
Proof. apply string_to_sign_run. Qed.

(** C5: the canonical request is built from the items of the header
    mapping in ascending order of their names as given (code point by code
    point, capitals before small letters): one line [lower(name):strip(value)]
    and a newline per header, the lower-cased names of the same order joined
    by [;], and the six segments joined by single newlines; the newline that
    ends the last header line and the joining newline leave one empty line
    before the signed-headers line. *)
Theorem canonical_request_layout
  (method uri query_string : str) (hs : dict) (payload_hash : str) :
  wf_dict hs ->
  exists sorted_headers : list (str * str),
    Permutation sorted_headers hs
    /\ StronglySorted (fun a b => str_lt (fst a) (fst b) = true)
         sorted_headers
    /\ let canonical_headers :=
         join ""
           (map (fun kv => lower (fst kv) ++ ":" ++ strip (snd kv) ++ newline)
                sorted_headers) in
       let signed_headers :=
         join ";" (map (fun kv => lower (fst kv)) sorted_headers) in
       _create_canonical_request method uri query_string hs payload_hash
       = join newline
           [ method; uri; query_string; canonical_headers; signed_headers;
             payload_hash ]
       /\ (hs <> [] ->
           exists block,
             canonical_headers = block ++ newline
             /\ _create_canonical_request method uri query_string hs
                  payload_hash
                = method ++ newline ++ uri ++ newline ++ query_string
                    ++ newline ++ block ++ newline ++ newline
                    ++ signed_headers ++ newline ++ payload_hash).
Proof.
  intros Hwf. exists (sorted tuple_lt (items hs)).
  split; [apply sorted_perm|].
  split; [now apply sorted_items_ascending|].
  cbn zeta.
  assert (Heq :
    _create_canonical_request method uri query_string hs payload_hash
    = join newline
        [ method; uri; query_string;
          join "" (map header_line (sorted tuple_lt (items hs)));
          join ";" (map (fun kv => lower (fst kv))
                        (sorted tuple_lt (items hs)));
          payload_hash ]).
  { unfold _create_canonical_request, join. cbn [String.concat].
    now rewrite !append_assoc. }
  split; [exact Heq|].
  intros Hne.
  destruct (header_block_ends_with_newline (sorted tuple_lt (items hs)))
    as [block Hb].
  { intros Hnil. apply Hne. apply Permutation_nil.
    rewrite <- Hnil. apply sorted_perm. }
  exists block. split; [exact Hb|].
  rewrite Heq. unfold join in *. cbn [String.concat].
  fold header_line. rewrite Hb. now rewrite !append_assoc.
Qed.

Lemma canonical_request_layout_witness :
  wf_dict [("a", " 2 "); ("B", "1")]
  /\ exists sorted_headers : list (str * str),
       Permutation sorted_headers [("a", " 2 "); ("B", "1")]
       /\ StronglySorted (fun a b => str_lt (fst a) (fst b) = true)
            sorted_headers
       /\ let canonical_headers :=
            join ""
              (map (fun kv =>
                      lower (fst kv) ++ ":" ++ strip (snd kv) ++ newline)
                   sorted_headers) in
          let signed_headers :=
            join ";" (map (fun kv => lower (fst kv)) sorted_headers) in
          _create_canonical_request "GET" "/p" "" [("a", " 2 "); ("B", "1")]
            "h"
          = join newline
              [ "GET"; "/p"; ""; canonical_headers; signed_headers; "h" ]
          /\ ([("a", " 2 "); ("B", "1")] <> [] ->
              exists block,
                canonical_headers = block ++ newline
                /\ _create_canonical_request "GET" "/p" ""
                     [("a", " 2 "); ("B", "1")] "h"
                   = "GET" ++ newline ++ "/p" ++ newline ++ ""
                       ++ newline ++ block ++ newline ++ newline
                       ++ signed_headers ++ newline ++ "h").
Proof.
  assert (Hwf : wf_dict [("a", " 2 "); ("B", "1")]).
  { repeat constructor; simpl; intuition discriminate. }
  split; [exact Hwf|].
  exact (canonical_request_layout "GET" "/p" "" _ "h" Hwf).
Defined.

(** Capitals sort before small letters: [B] comes before [a]. *)
Example canonical_request_of_mixed_case :
  _create_canonical_request "GET" "/p" "" [("a", " 2 "); ("B", "1")] "h"
  = join newline ["GET"; "/p"; ""; "b:1" ++ newline ++ "a:2" ++ newline;
                  "b;a"; "h"].
Proof. vm_compute. reflexivity. Qed.

Lemma falsy_spec (x : option str) : falsy x = true <-> empty_or_unset x.
Proof.
  unfold empty_or_unset. destruct x as [s|]; simpl.
  - rewrite String.eqb_eq. split.
    + intros ->. now right.
    + intros [H|H]; congruence.
  - split; [now left | reflexivity].
Qed.

Lemma guard_spec (self : OmniHumanNode) :
  falsy (secret_access_key self) || falsy (access_key_id self) = true
  <-> empty_or_unset (access_key_id self)
      \/ empty_or_unset (secret_access_key self).
Proof. rewrite orb_true_iff, !falsy_spec. tauto. Qed.

Lemma guard_passed (self : OmniHumanNode) :
  ~ empty_or_unset (access_key_id self) ->
  ~ empty_or_unset (secret_access_key self) ->
  falsy (secret_access_key self) || falsy (access_key_id self) = false.
Proof.
  intros Ha Hs.
  destruct (falsy (secret_access_key self) || falsy (access_key_id self))
    eqn:E; [|reflexivity].
  apply guard_spec in E. tauto.
Qed.

Lemma second_piece_exists (uri : str) :
  occurs "://" uri -> exists after, nth_error (split "://" uri) 1 = Some after.
Proof.
  intros Ho. rewrite split_second_piece.
  assert (H := split_occurs "://" uri ltac:(discriminate) Ho).
  destruct (snd (split_from "://" 0 uri)) as [|after l]; [congruence|].
  now exists after.
Qed.

(** With credentials that pass the check, the one other way to fail is the
    [IndexError] of [uri.split("://")[1]] on a uri without [://]. *)
Lemma index_error_iff
  (self : OmniHumanNode) (now : datetime) (method uri : str)
  (query_params : dict) (payload : str) (hs : dict) (msg : str) :
  fst (call (generate_authorization_header self now method uri query_params
               payload) hs) = Raise (IndexError msg) ->
  ~ occurs "://" uri.
Proof.
  unfold call. rewrite generate_authorization_header_run.
  destruct (falsy (secret_access_key self) || falsy (access_key_id self));
    [discriminate|].
  destruct (nth_error (split "://" uri) 1) as [after|] eqn:E;
    [discriminate|].
  intros _ Ho. destruct (second_piece_exists uri Ho). congruence.
Qed.

(** *** The call on any payload *)

Example encode_utf8_checks :
  hex (flat_map utf8_point [0x7ff; 0x800; 0xffff; 0x10000; 0x10ffff]%Z)
  = "dfbfe0a080efbfbff0908080f48fbfbf"
  /\ surrogate_run [0x61; 0x62; 0xdc00; 0xdc01; 0x63; 0xd800]%Z 0
     = Some (2, 4)
  /\ surrogate_run [0xe9; 0xdfff]%Z 0 = Some (1, 2).
Proof. vm_compute. repeat split. Qed.

Lemma ord_is_no_surrogate (c : ascii) : is_surrogate (ord c) = false.
Proof. destruct c as [[] [] [] [] [] [] [] []]; reflexivity. Qed.

Lemma utf8_point_ord (c : ascii) : utf8_point (ord c) = utf8_char c.
Proof. destruct c as [[] [] [] [] [] [] [] []]; reflexivity. Qed.

Lemma surrogate_run_text_of (s : str) (i : nat) :
  surrogate_run (text_of s) i = None.
Proof.
  revert i. induction s as [|c s IH]; intros i; [reflexivity|].
  unfold text_of in *. cbn [list_ascii_of_string map surrogate_run].
  rewrite ord_is_no_surrogate. apply IH.
Qed.

Lemma utf8_text_of (s : str) : flat_map utf8_point (text_of s) = encode s.
Proof.
  induction s as [|c s IH]; [reflexivity|].
  unfold text_of in *. cbn [list_ascii_of_string map flat_map encode].
  now rewrite utf8_point_ord, IH.
Qed.

(** An 8-bit text always encodes, to the bytes of [encode]. *)
Lemma encode_utf8_text_of (s : str) (w : world) :
  encode_utf8 (text_of s) w = (Return (encode s), w).
Proof.
  unfold encode_utf8. now rewrite surrogate_run_text_of, utf8_text_of.
Qed.


Lemma surrogate_run_found (t : text) (i : nat) :
  Exists (fun cp => is_surrogate cp = true) t ->
  exists start stop, surrogate_run t i = Some (start, stop).
Proof.
  intros H. revert i. induction H as [cp t Hcp|cp t _ IH]; intros i.
  - cbn [surrogate_run]. rewrite Hcp. eauto.
  - cbn [surrogate_run]. destruct (is_surrogate cp); [eauto | apply IH].
Qed.

(** The four ways a call on any payload ends. *)
Lemma generate_authorization_header_text_run
  (self : OmniHumanNode) (now : datetime) (method uri : str)
  (query_params : dict) (payload : text) (w : world) :
  generate_authorization_header_text self now method uri query_params
    payload w
  = if falsy (secret_access_key self) || falsy (access_key_id self)
    then (Raise credentials_error, w)
    else
      match nth_error (split "://" uri) 1 with
      | None => (Raise (IndexError "list index out of range"), w)
      | Some after =>
          let hs := injected now after (headers w) in
          match surrogate_run payload 0 with
          | Some (start, stop) =>
              (Raise (UnicodeEncodeError start stop), World hs (hash_log w))
          | None =>
              let payload_bytes := flat_map utf8_point payload in
              let cr :=
                canonical_of_bytes method uri query_params payload_bytes hs in
              (Return (authorization_of self now (signed_names hs)
                         (signature_of self now cr)),
               World hs
                 (hash_log w ++ calls_of_bytes self now payload_bytes cr)%list)
          end
      end.
Proof.
  unfold generate_authorization_header_text.
  destruct (falsy (secret_access_key self) || falsy (access_key_id self));
    [reflexivity|].
  unfold bind at 1. unfold getitem at 1.
  destruct (nth_error (split "://" uri) 1) as [after|]; [|reflexivity].
  unfold ret at 1, bind at 1.
  unfold split at 1, getitem at 1. cbn [nth_error].
  unfold ret at 1.
  unfold bind at 1. unfold headers_setitem at 1.
  unfold bind at 1. unfold headers_setitem at 1. cbn [headers hash_log].
  unfold bind at 1. unfold encode_utf8 at 1. fold (injected now after (headers w)).
  destruct (surrogate_run payload 0) as [[start stop]|]; [reflexivity|].
  unfold ret at 1.
  repeat progress
    (unfold bind, headers_items, sha256_hexdigest, log_call, ret,
       _hmac_sha256;
     cbn beta iota zeta; cbn [headers hash_log];
     rewrite ?string_to_sign_run, ?signing_key_run).
  rewrite authorization_text.
  unfold calls_of_bytes, canonical_of_bytes, query_string_of, signature_of,
    signed_names, items.
  rewrite <- !app_assoc. reflexivity.
Qed.

(** On an 8-bit payload the call is the one of the sections above. *)
Lemma generate_authorization_header_of_str
  (self : OmniHumanNode) (now : datetime) (method uri : str)
  (query_params : dict) (payload : str) (w : world) :
  generate_authorization_header_text self now method uri query_params
    (text_of payload) w
  = generate_authorization_header self now method uri query_params payload w.
Proof.
  rewrite generate_authorization_header_text_run,
    generate_authorization_header_run.
  rewrite surrogate_run_text_of, utf8_text_of. reflexivity.
Qed.




(** C10: when the call raises the configuration error the caller's header
    mapping is the one that was passed in; a mapping that differs after the
    call shows that both credentials passed the check. *)
Theorem credential_error_leaves_headers
  (self : OmniHumanNode) (now : datetime) (method uri : str)
  (query_params : dict) (payload : str) (hs : dict)
  (o : outcome str) (w' : world) :
  call (generate_authorization_header self now method uri query_params
          payload) hs = (o, w') ->
  (o = Raise credentials_error -> headers w' = hs)
  /\ (headers w' <> hs ->
      ~ empty_or_unset (access_key_id self)
      /\ ~ empty_or_unset (secret_access_key self)).
Proof.
  unfold call. rewrite generate_authorization_header_run.
  destruct (falsy (secret_access_key self) || falsy (access_key_id self))
    eqn:G.
  - intros [= <- <-]. cbn [headers]. split; [reflexivity | congruence].
  - assert (NG : ~ (empty_or_unset (access_key_id self)
                    \/ empty_or_unset (secret_access_key self))).
    { intros H. apply guard_spec in H. congruence. }
    destruct (nth_error (split "://" uri) 1) as [after|].
    + cbn zeta. intros [= <- <-]. split; [discriminate | tauto].
    + intros [= <- <-]. split; [reflexivity | tauto].
Qed.

Lemma credential_error_leaves_headers_witness :
  call (generate_authorization_header __init__ test_now "GET"
          "https://cv.byteplusapi.com/path" [] "") [("B", "1")]
  = (Raise credentials_error, World [("B", "1")] [])
  /\ headers (World [("B", "1")] []) = [("B", "1")].
Proof.
  assert (H : call (generate_authorization_header __init__ test_now "GET"
                      "https://cv.byteplusapi.com/path" [] "") [("B", "1")]
              = (Raise credentials_error, World [("B", "1")] []))
    by reflexivity.
  split; [exact H|].
  exact (proj1 (credential_error_leaves_headers _ _ _ _ _ _ _ _ _ H)
           eq_refl).
Defined.

(** C9: for a uri [scheme://host] followed by nothing or by a path that
    starts with [/], the call leaves [host] under the key [host] of the
    caller's mapping. The scheme holds no colon, the host no slash, and the
    host does not end in a colon. *)
Theorem host_header_injected
  (self : OmniHumanNode) (now : datetime) (method scheme host path : str)
  (query_params : dict) (payload : str) (hs : dict) :
  ~ empty_or_unset (access_key_id self) ->
  ~ empty_or_unset (secret_access_key self) ->
  mem_char ":" scheme = false ->
  mem_char "/" host = false ->
  last_char host <> Some ":"%char ->
  path = "" \/ (exists p, path = String "/" p) ->
  dict_get "host"
    (headers
       (snd (call (generate_authorization_header self now method
                     (scheme ++ "://" ++ host ++ path) query_params payload)
                  hs)))
  = Some host.
Proof.
  intros Ha Hs Hscheme Hhost Hlast Hpath.
  unfold call. rewrite generate_authorization_header_run.
  rewrite (guard_passed self Ha Hs).
  rewrite split_second_piece, split_scheme by assumption.
  cbn [snd hd_error headers]. unfold injected.
  rewrite dict_get_setitem_other by discriminate.
  rewrite dict_get_setitem.
  destruct (first_piece_of_authority host path Hhost Hlast Hpath)
    as (q & Hq & ->).
  now rewrite first_piece_of_host.
Qed.

Lemma host_header_injected_witness :
  mem_char ":" "https" = false
  /\ mem_char "/" "cv.byteplusapi.com" = false
  /\ dict_get "host"
       (headers
          (snd (call (generate_authorization_header test_node test_now "GET"
                        "https://cv.byteplusapi.com/path" [] "") [])))
     = Some "cv.byteplusapi.com".
Proof.
  split; [reflexivity|]. split; [reflexivity|].
  apply (host_header_injected test_node test_now "GET" "https"
           "cv.byteplusapi.com" "/path" [] "" []).
  - intros [H|H]; discriminate H.
  - intros [H|H]; discriminate H.
  - reflexivity.
  - reflexivity.
  - discriminate.
  - right. now exists "path".
Defined.

Lemma signed_names_sorted (hs : dict) :
  signed_names hs = sorted str_lt (map (fun kv => lower (fst kv)) hs).
Proof.
  unfold signed_names.
  apply (map_sorted_key (fun kv : str * str => lower (fst kv))).
Qed.

(** What a returned header tells about the call. *)
Lemma returned_inv
  (self : OmniHumanNode) (now : datetime) (method uri : str)
  (query_params : dict) (payload : str) (hs : dict)
  (authorization : str) (w' : world) :
  call (generate_authorization_header self now method uri query_params
          payload) hs = (Return authorization, w') ->
  exists after,
    falsy (secret_access_key self) || falsy (access_key_id self) = false
    /\ nth_error (split "://" uri) 1 = Some after
    /\ headers w' = injected now after hs
    /\ hash_log w'
       = calls_of self now payload
           (canonical_of method uri query_params payload (headers w'))
    /\ authorization
       = authorization_of self now (signed_names (headers w'))
           (signature_of self now
              (canonical_of method uri query_params payload (headers w'))).
Proof.
  unfold call. rewrite generate_authorization_header_run.
  destruct (falsy (secret_access_key self) || falsy (access_key_id self));
    [discriminate|].
  destruct (nth_error (split "://" uri) 1) as [after|]; [|discriminate].
  cbn zeta. cbn [headers hash_log app]. intros [= <- <-].
  exists after. cbn [headers hash_log]. repeat split; reflexivity.
Qed.

(** C3: a returned header is
    [HMAC-SHA256 Credential=<access_key_id>/<date_stamp>/<region>/<service>/request, SignedHeaders=<names>, Signature=<hex>]
    where the names are the lower-cased names of the caller's mapping, with
    [host] and [x-amz-date] set, in ascending order of the lower-cased names
    and joined by [;]. They are the names of the signed-headers line of the
    canonical request, up to their order. *)
Theorem authorization_format
  (self : OmniHumanNode) (now : datetime) (method uri : str)
  (query_params : dict) (payload : str) (hs : dict)
  (authorization : str) (w' : world) :
  call (generate_authorization_header self now method uri query_params
          payload) hs = (Return authorization, w') ->
  exists (access_key : str) (names : list str) (signature : bytes),
    access_key_id self = Some access_key
    /\ dict_get "host" (headers w') <> None
    /\ dict_get "x-amz-date" (headers w') = Some (_get_amz_date now)
    /\ Permutation names (map (fun kv => lower (fst kv)) (headers w'))
    /\ Sorted (fun a b => str_lt b a = false) names
    /\ Permutation names
         (map (fun kv => lower (fst kv))
              (sorted tuple_lt (items (headers w'))))
    /\ signature
       = HMAC.digest
           (signing_key_of (str_value (secret_access_key self))
              (_get_date_stamp now) REGION SERVICE)
           (encode
              (string_to_sign_of "HMAC-SHA256" (_get_amz_date now)
                 (_get_date_stamp now) REGION SERVICE
                 (canonical_of method uri query_params payload (headers w'))))
    /\ authorization
       = "HMAC-SHA256 Credential=" ++ access_key ++ "/"
           ++ _get_date_stamp now ++ "/" ++ REGION ++ "/" ++ SERVICE
           ++ "/request, SignedHeaders=" ++ join ";" names
           ++ ", Signature=" ++ hex signature.
Proof.
  intros Hcall.
  destruct (returned_inv _ _ _ _ _ _ _ _ _ Hcall)
    as (after & G & _ & Hh & _ & Ha).
  apply orb_false_iff in G. destruct G as [_ Gk].
  destruct (access_key_id self) as [access_key|] eqn:Ek; [|discriminate].
  exists access_key, (signed_names (headers w')),
    (signature_of self now
       (canonical_of method uri query_params payload (headers w'))).
  split; [reflexivity|].
  split; [rewrite Hh; unfold injected;
          rewrite dict_get_setitem_other, dict_get_setitem; discriminate|].
  split; [rewrite Hh; unfold injected; apply dict_get_setitem|].
  rewrite signed_names_sorted.
  split; [apply sorted_perm|].
  split; [apply (sorted_Sorted str_lt str_lt_asym)|].
  split.
  { rewrite sorted_perm. apply Permutation_map. symmetry. apply sorted_perm. }
  split; [reflexivity|].
  rewrite Ha. unfold authorization_of. rewrite Ek.
  now rewrite signed_names_sorted.
Qed.

Lemma authorization_format_witness :
  call (generate_authorization_header test_node test_now "GET"
          "https://cv.byteplusapi.com/path" [] "") [("B", "1"); ("a", "2")]
  = (Return "HMAC-SHA256 Credential=AKID/20240101/ap-singapore-1/cv/request, SignedHeaders=a;b;host;x-amz-date, Signature=5a6bc0526c8297b0b808b870b698509064f6ec316fcddd9e5a19b66f3a04bb05",
     snd (call (generate_authorization_header test_node test_now "GET"
                  "https://cv.byteplusapi.com/path" [] "")
            [("B", "1"); ("a", "2")]))
  /\ exists (names : list str) (signature : bytes),
       "HMAC-SHA256 Credential=AKID/20240101/ap-singapore-1/cv/request, SignedHeaders=a;b;host;x-amz-date, Signature=5a6bc0526c8297b0b808b870b698509064f6ec316fcddd9e5a19b66f3a04bb05"
       = "HMAC-SHA256 Credential=" ++ "AKID" ++ "/"
           ++ _get_date_stamp test_now ++ "/" ++ REGION ++ "/" ++ SERVICE
           ++ "/request, SignedHeaders=" ++ join ";" names
           ++ ", Signature=" ++ hex signature.
Proof.
  assert (Hcall :
    call (generate_authorization_header test_node test_now "GET"
            "https://cv.byteplusapi.com/path" [] "") [("B", "1"); ("a", "2")]
    = (Return "HMAC-SHA256 Credential=AKID/20240101/ap-singapore-1/cv/request, SignedHeaders=a;b;host;x-amz-date, Signature=5a6bc0526c8297b0b808b870b698509064f6ec316fcddd9e5a19b66f3a04bb05",
       snd (call (generate_authorization_header test_node test_now "GET"
                    "https://cv.byteplusapi.com/path" [] "")
              [("B", "1"); ("a", "2")]))).
  { vm_compute. reflexivity. }
  split; [exact Hcall|].
  destruct (authorization_format _ _ _ _ _ _ _ _ _ Hcall)
    as (access_key & names & signature & Hk & _ & _ & _ & _ & _ & _ & Ha).
  injection Hk as <-.
  exists names, signature. exact Ha.
Defined.

(** The two orders of the signed headers on the mapping [B], [a]: by name
    as given inside the canonical request, by lower-cased name in the
    header. *)
Example signed_headers_orders_differ :
  let hs := injected test_now "cv.byteplusapi.com/path"
              [("B", "1"); ("a", "2")] in
  join ";" (map (fun kv => lower (fst kv)) (sorted tuple_lt (items hs)))
  = "b;a;host;x-amz-date"
  /\ join ";" (signed_names hs) = "a;b;host;x-amz-date".
Proof. vm_compute. split; reflexivity. Qed.

(** C7: in a call that returns, the query string of the canonical request
    that is hashed is made of the items of [query_params] in ascending order
    of their keys, each as [quote(key, safe='')=quote(value, safe='')],
    joined by [&]; it is empty for the empty mapping. *)
Theorem query_string_canonical
  (self : OmniHumanNode) (now : datetime) (method uri : str)
  (query_params : dict) (payload : str) (hs : dict)
  (authorization : str) (w' : world) :
  wf_dict query_params ->
  call (generate_authorization_header self now method uri query_params
          payload) hs = (Return authorization, w') ->
  exists sorted_params : list (str * str),
    Permutation sorted_params query_params
    /\ StronglySorted (fun a b => str_lt (fst a) (fst b) = true)
         sorted_params
    /\ let query_string :=
         join "&"
           (map (fun kv => quote (fst kv) "" ++ "=" ++ quote (snd kv) "")
                sorted_params) in
       nth_error (hash_log w') 1
       = Some (Sha256Call
                 (encode
                    (_create_canonical_request method uri query_string
                       (headers w')
                       (hex (SHA256.digest (encode payload))))))
       /\ (query_params = [] -> query_string = "").
Proof.
  intros Hwf Hcall.
  destruct (returned_inv _ _ _ _ _ _ _ _ _ Hcall)
    as (after & _ & _ & _ & Hlog & _).
  exists (sorted tuple_lt (items query_params)).
  split; [apply sorted_perm|].
  split; [now apply sorted_items_ascending|].
  cbn zeta. split.
  - rewrite Hlog. reflexivity.
  - intros ->. reflexivity.
Qed.

Lemma query_string_canonical_witness :
  wf_dict [("b", "2"); ("a", "1 /")]
  /\ exists sorted_params : list (str * str),
       Permutation sorted_params [("b", "2"); ("a", "1 /")]
       /\ StronglySorted (fun a b => str_lt (fst a) (fst b) = true)
            sorted_params.
Proof.
  assert (Hwf : wf_dict [("b", "2"); ("a", "1 /")]).
  { repeat constructor; simpl; intuition discriminate. }
  assert (Hcall :
    call (generate_authorization_header test_node test_now "GET"
            "https://cv.byteplusapi.com/path" [("b", "2"); ("a", "1 /")] "")
         []
    = (Return "HMAC-SHA256 Credential=AKID/20240101/ap-singapore-1/cv/request, SignedHeaders=host;x-amz-date, Signature=ae5f77b25103229cbe7c6ed3357da144b1e321fd2d6b6ab15f3127af76d0bb80",
       snd (call (generate_authorization_header test_node test_now "GET"
                    "https://cv.byteplusapi.com/path"
                    [("b", "2"); ("a", "1 /")] "") []))).
  { vm_compute. reflexivity. }
  split; [exact Hwf|].
  destruct (query_string_canonical _ _ _ _ _ _ _ _ _ Hwf Hcall)
    as (sorted_params & Hp & Hs & _).
  exists sorted_params. split; assumption.
Defined.

Example query_string_of_two :
  query_string_of [("b", "2"); ("a", "1 /")] = "a=1%20%2F&b=2"
  /\ query_string_of [] = "".
Proof. vm_compute. split; reflexivity. Qed.

(** C8: with the same credentials, time, method, uri and payload, two
    calls whose query mappings hold the same items and whose header
    mappings hold the same items, in any insertion order, end the same way
    and return the same header. *)
Theorem ordering_independence
  (self : OmniHumanNode) (now : datetime) (method uri : str)
  (query_params query_params' : dict) (payload : str) (hs hs' : dict) :
  wf_dict hs ->
  Permutation query_params query_params' ->
  Permutation hs hs' ->
  fst (call (generate_authorization_header self now method uri query_params
               payload) hs)
  = fst (call (generate_authorization_header self now method uri
                 query_params' payload) hs').
Proof.
  intros Hwf Hq Hh. unfold call.
  rewrite !generate_authorization_header_run. cbn [headers hash_log].
  destruct (falsy (secret_access_key self) || falsy (access_key_id self));
    [reflexivity|].
  destruct (nth_error (split "://" uri) 1) as [after|]; [|reflexivity].
  cbn zeta. cbn [fst].
  assert (Hi : Permutation (injected now after hs) (injected now after hs')).
  { unfold injected. apply setitem_of_perm.
    - now apply setitem_wf.
    - now apply setitem_of_perm. }
  assert (Hn : signed_names (injected now after hs)
               = signed_names (injected now after hs')).
  { rewrite !signed_names_sorted. apply sorted_str_of_perm.
    now apply Permutation_map. }
  assert (Hc : canonical_of method uri query_params payload
                 (injected now after hs)
               = canonical_of method uri query_params' payload
                   (injected now after hs')).
  { unfold canonical_of, query_string_of, _create_canonical_request, items.
    rewrite (sorted_items_of_perm _ _ Hq), (sorted_items_of_perm _ _ Hi).
    reflexivity. }
  now rewrite Hn, Hc.
Qed.

Lemma ordering_independence_witness :
  wf_dict [("B", "1"); ("a", "2")]
  /\ fst (call (generate_authorization_header test_node test_now "GET"
                  "https://cv.byteplusapi.com/path"
                  [("b", "2"); ("a", "1 /")] "") [("B", "1"); ("a", "2")])
     = fst (call (generate_authorization_header test_node test_now "GET"
                    "https://cv.byteplusapi.com/path"
                    [("a", "1 /"); ("b", "2")] "") [("a", "2"); ("B", "1")]).
Proof.
  assert (Hwf : wf_dict [("B", "1"); ("a", "2")]).
  { repeat constructor; simpl; intuition discriminate. }
  split; [exact Hwf|].
  apply (ordering_independence test_node test_now "GET"
           "https://cv.byteplusapi.com/path" _ _ "" _ _ Hwf);
    apply perm_swap.
Defined.

(** C1 (the code departs from it): for the uri
    [https://cv.byteplusapi.com/path] the second line of the canonical
    request that is hashed is that whole uri, scheme and host included, and
    not its path [/path]. *)
Theorem canonical_request_holds_whole_uri :
  let w' :=
    snd (call (generate_authorization_header test_node test_now "GET"
                 "https://cv.byteplusapi.com/path" [] "") []) in
  exists canonical_request : str,
    nth_error (hash_log w') 1 = Some (Sha256Call (encode canonical_request))
    /\ nth_error (split newline canonical_request) 1
       = Some "https://cv.byteplusapi.com/path"
    /\ nth_error (split newline canonical_request) 1 <> Some "/path".
Proof.
  exists (canonical_of "GET" "https://cv.byteplusapi.com/path" [] ""
            (injected test_now "cv.byteplusapi.com/path" [])).
  split; [vm_compute; reflexivity|].
  split; [vm_compute; reflexivity|].
  vm_compute. discriminate.
Qed.

(** * Further properties *)

(** ** The class hook of [base.py] *)

Lemma getattr_required (cls : pyclass) (attr : str) :
  In attr required_names -> exists v, getattr cls attr = Some v.
Proof.
  intros Hin. induction cls as [|name ns parent IH]; simpl.
  - unfold required_names in Hin. simpl in Hin.
    destruct Hin as [<-|[<-|[<-|[<-|[]]]]]; eexists; reflexivity.
  - destruct (lookup attr ns) as [v|]; [now exists v | exact IH].
Qed.

Lemma class_attr_required (cls : pyclass) (attr : str) :
  In attr required_names ->
  exists v, class_attr cls attr = inr v /\ getattr cls attr = Some v.
Proof.
  intros Hin. destruct (getattr_required cls attr Hin) as [v Hv].
  exists v. unfold class_attr. now rewrite Hv.
Qed.

Lemma is_none_unset (cls : pyclass) (attr : str) (v : pyobj) :
  getattr cls attr = Some v -> is_none v = unset cls attr.
Proof. intros H. unfold unset. rewrite H. now destruct v. Qed.

(** The hook, without keyword arguments, in terms of the attributes that
    resolve to [None]. *)
Lemma init_subclass_run (cls : pyclass) :
  __init_subclass__ cls []
  = if String.eqb (__name__ cls) "ComfyUICustomNodeBase" then inr tt
    else
      match filter (unset cls) required_names with
      | [] => inr tt
      | missing =>
          inl (TypeError
                 (__name__ cls
                    ++ " class must define the following attributes: "
                    ++ join ", " missing))
      end.
Proof.
  unfold __init_subclass__.
  destruct (String.eqb (__name__ cls) "ComfyUICustomNodeBase");
    [reflexivity|].
  destruct (class_attr_required cls "RETURN_TYPES") as (v1 & -> & H1);
    [simpl; tauto|].
  destruct (class_attr_required cls "RETURN_NAMES") as (v2 & -> & H2);
    [simpl; tauto|].
  destruct (class_attr_required cls "FUNCTION") as (v3 & -> & H3);
    [simpl; tauto|].
  destruct (class_attr_required cls "CATEGORY") as (v4 & -> & H4);
    [simpl; tauto|].
  cbn zeta. unfold required_names. cbn [filter snd].
  rewrite (is_none_unset _ _ _ H1), (is_none_unset _ _ _ H2),
    (is_none_unset _ _ _ H3), (is_none_unset _ _ _ H4).
  destruct (unset cls "RETURN_TYPES"), (unset cls "RETURN_NAMES"),
    (unset cls "FUNCTION"), (unset cls "CATEGORY"); reflexivity.
Qed.

(** X1: a class statement without keyword arguments passes the hook exactly
    when the class is named [ComfyUICustomNodeBase] or none of
    [RETURN_TYPES], [RETURN_NAMES], [FUNCTION], [CATEGORY] resolves to
    [None], through the class body and its parents. *)
Theorem init_subclass_ok_iff (cls : pyclass) :
  __init_subclass__ cls [] = inr tt
  <-> __name__ cls = "ComfyUICustomNodeBase"
      \/ (forall attr, In attr required_names ->
                       getattr cls attr <> Some PyNone).
Proof.
  rewrite init_subclass_run.
  destruct (String.eqb_spec (__name__ cls) "ComfyUICustomNodeBase") as [E|N].
  - split; [now left | reflexivity].
  - destruct (filter (unset cls) required_names) as [|a l] eqn:F.
    + split; [|reflexivity]. intros _. right. intros attr Hin Hget.
      assert (Hf : In attr (filter (unset cls) required_names)).
      { apply filter_In. split; [assumption|]. unfold unset. now rewrite Hget. }
      rewrite F in Hf. exact Hf.
    + split; [discriminate|]. intros [E|H]; [contradiction|]. exfalso.
      assert (Hf : In a (filter (unset cls) required_names))
        by (rewrite F; now left).
      apply filter_In in Hf. destruct Hf as [Hin Hu].
      apply (H a Hin). unfold unset in Hu.
      destruct (getattr cls a) as [[| | |]|]; try discriminate. reflexivity.
Qed.






(** ** The effects of a call *)

Lemma setitem_same (k v : str) (d : dict) :
  dict_get k d = Some v -> setitem k v d = d.
Proof.
  induction d as [|[k' v'] d IH]; simpl; [discriminate|].
  destruct (String.eqb k' k).
  - now intros [= ->].
  - intros H. now rewrite IH.
Qed.

Lemma injected_again (now : datetime) (after : str) (hs : dict) :
  injected now after (injected now after hs) = injected now after hs.
Proof.
  unfold injected.
  rewrite (setitem_same "host").
  - apply setitem_same. apply dict_get_setitem.
  - rewrite dict_get_setitem_other by discriminate. apply dict_get_setitem.
Qed.

Lemma setitem_keys_ext (k v : str) (d : dict) :
  exists extra,
    map fst (setitem k v d) = (map fst d ++ extra)%list
    /\ (extra = [] \/ extra = [k]).
Proof.
  rewrite setitem_keys.
  destruct (existsb (String.eqb k) (map fst d)).
  - exists []. split; [now rewrite app_nil_r | now left].
  - exists [k]. split; [reflexivity | now right].
Qed.

(** X4: a node as [__init__] leaves it cannot sign: for every request the
    call raises the configuration error, touches no header and computes no
    digest; setting only one of the two credentials changes nothing. *)
Theorem fresh_node_cannot_sign
  (now : datetime) (method uri : str) (query_params : dict) (payload : str)
  (hs : dict) (credential : str) :
  let refused self :=
    call (generate_authorization_header self now method uri query_params
            payload) hs
    = (Raise credentials_error, World hs []) in
  refused __init__
  /\ refused (Node (Some credential) None)
  /\ refused (Node None (Some credential)).
Proof.
  cbn zeta. unfold call. rewrite !generate_authorization_header_run.
  cbn [secret_access_key access_key_id __init__ falsy orb].
  now rewrite orb_true_r.
Qed.

(** X5: a call that raises the configuration error or an [IndexError] has
    changed nothing: the header mapping and the record of computed digests
    are as before the call. A payload that does not encode as UTF-8, with
    both credentials set and a uri that holds [://], raises
    [UnicodeEncodeError] once [host] and [x-amz-date] are written, and
    before any digest is computed. *)
Theorem failed_call_effects
  (self : OmniHumanNode) (now : datetime) (method uri : str)
  (query_params : dict) (payload : text) (w : world) :
  let run :=
    generate_authorization_header_text self now method uri query_params
      payload w in
  (forall e w',
     run = (Raise e, w') ->
     e = credentials_error \/ (exists msg, e = IndexError msg) -> w' = w)
  /\ (~ empty_or_unset (access_key_id self) ->
      ~ empty_or_unset (secret_access_key self) ->
      occurs "://" uri ->
      Exists (fun cp => is_surrogate cp = true) payload ->
      exists start stop after,
        nth_error (split "://" uri) 1 = Some after
        /\ run = (Raise (UnicodeEncodeError start stop),
                  World (injected now after (headers w)) (hash_log w))).
Proof.
  cbn zeta. rewrite generate_authorization_header_text_run. split.
  - intros e w'.
    destruct (falsy (secret_access_key self) || falsy (access_key_id self)).
    + now intros [= <- <-].
    + destruct (nth_error (split "://" uri) 1) as [after|].
      * cbn zeta. destruct (surrogate_run payload 0) as [[start stop]|].
        -- intros [= <- <-] [H|[msg H]]; discriminate H.
        -- discriminate.
      * now intros [= <- <-].
  - intros Ha Hs Ho Hex. rewrite (guard_passed self Ha Hs).
    destruct (second_piece_exists uri Ho) as [after ->]. cbn zeta.
    destruct (surrogate_run_found payload 0 Hex) as (start & stop & ->).
    exists start, stop, after. split; reflexivity.
Qed.

Lemma failed_call_effects_witness :
  (generate_authorization_header_text test_node test_now "GET" "no-scheme"
     [] [] (World [("B", "1")] [])
   = (Raise (IndexError "list index out of range"), World [("B", "1")] [])
   /\ World [("B", "1")] [] = World [("B", "1")] [])
  /\ exists start stop after,
       nth_error (split "://" "https://cv.byteplusapi.com/path") 1
       = Some after
       /\ generate_authorization_header_text test_node test_now "GET"
            "https://cv.byteplusapi.com/path" [] [0x61; 0xdc00; 0xdc01]%Z
            (World [("B", "1")] [])
          = (Raise (UnicodeEncodeError start stop),
             World (injected test_now after (headers (World [("B", "1")] [])))
                   (hash_log (World [("B", "1")] []))).
Proof.
  split.
  - assert (H : generate_authorization_header_text test_node test_now "GET"
                  "no-scheme" [] [] (World [("B", "1")] [])
                = (Raise (IndexError "list index out of range"),
                   World [("B", "1")] []))
      by reflexivity.
    split; [exact H|].
    apply (proj1 (failed_call_effects test_node test_now "GET" "no-scheme"
                    [] [] (World [("B", "1")] []))
             _ _ H).
    right. eauto.
  - apply (proj2 (failed_call_effects test_node test_now "GET"
                    "https://cv.byteplusapi.com/path" []
                    [0x61; 0xdc00; 0xdc01]%Z (World [("B", "1")] []))).
    + intros [H|H]; discriminate H.
    + intros [H|H]; discriminate H.
    + exists "https", "cv.byteplusapi.com/path". reflexivity.
    + apply Exists_cons_tl, Exists_cons_hd. reflexivity.
Defined.

(** X6: a call that returns has computed seven digests, in this order: the
    SHA-256 of the payload, the SHA-256 of a canonical request that ends
    with the hexadecimal payload digest, four HMACs each keyed by the digest
    of the one before, and a fifth HMAC, keyed by the fourth digest, over a
    string to sign that ends with the hexadecimal digest of the canonical
    request; the header ends with [Signature=] and the hexadecimal digest of
    that fifth HMAC. *)
Theorem returned_call_digest_chain
  (self : OmniHumanNode) (now : datetime) (method uri : str)
  (query_params : dict) (payload : str) (w w' : world) (authorization : str) :
  generate_authorization_header self now method uri query_params payload w
  = (Return authorization, w') ->
  exists (canonical_head string_to_sign_head header_head : str)
         (k0 d0 d1 d2 : bytes),
    let canonical_request :=
      canonical_head ++ hex (SHA256.digest (encode payload)) in
    let string_to_sign :=
      string_to_sign_head ++ hex (SHA256.digest (encode canonical_request)) in
    let k1 := HMAC.digest k0 d0 in
    let k2 := HMAC.digest k1 d1 in
    let k3 := HMAC.digest k2 d2 in
    let k4 := HMAC.digest k3 aws4_request in
    hash_log w'
    = (hash_log w
         ++ [ Sha256Call (encode payload);
              Sha256Call (encode canonical_request);
              HmacCall k0 d0; HmacCall k1 d1; HmacCall k2 d2;
              HmacCall k3 aws4_request;
              HmacCall k4 (encode string_to_sign) ])%list
    /\ authorization
       = header_head ++ "Signature="
           ++ hex (HMAC.digest k4 (encode string_to_sign)).
Proof.
  rewrite generate_authorization_header_run.
  destruct (falsy (secret_access_key self) || falsy (access_key_id self));
    [discriminate|].
  destruct (nth_error (split "://" uri) 1) as [after|]; [|discriminate].
  cbn zeta. intros [= <- <-]. cbn [hash_log].
  set (hs := injected now after (headers w)).
  set (sk := str_value (secret_access_key self)).
  exists (method ++ newline ++ (uri ++ newline)
            ++ (query_string_of query_params ++ newline)
            ++ (join "" (map header_line (sorted tuple_lt (items hs)))
                  ++ newline)
            ++ (join ";" (map (fun kv => lower (fst kv))
                              (sorted tuple_lt (items hs))) ++ newline)),
    ("HMAC-SHA256" ++ newline ++ _get_amz_date now ++ newline
       ++ (_get_date_stamp now ++ "/" ++ REGION ++ "/" ++ SERVICE
             ++ "/aws4_request") ++ newline),
    ("HMAC-SHA256 Credential=" ++ str_value (access_key_id self) ++ "/"
       ++ _get_date_stamp now ++ "/" ++ REGION ++ "/" ++ SERVICE
       ++ "/request, SignedHeaders=" ++ join ";" (signed_names hs) ++ ", "),
    (encode ("AWS4" ++ sk)), (encode (_get_date_stamp now)),
    (encode REGION), (encode SERVICE).
  cbn zeta.
  assert (Hc : canonical_of method uri query_params payload hs
               = (method ++ newline ++ (uri ++ newline)
                    ++ (query_string_of query_params ++ newline)
                    ++ (join "" (map header_line
                                     (sorted tuple_lt (items hs)))
                          ++ newline)
                    ++ (join ";" (map (fun kv => lower (fst kv))
                                      (sorted tuple_lt (items hs)))
                          ++ newline))
                 ++ hex (SHA256.digest (encode payload))).
  { unfold canonical_of, _create_canonical_request. cbn zeta.
    now rewrite !append_assoc. }
  rewrite <- Hc.
  assert (Hs : string_to_sign_of "HMAC-SHA256" (_get_amz_date now)
                 (_get_date_stamp now) REGION SERVICE
                 (canonical_of method uri query_params payload hs)
               = ("HMAC-SHA256" ++ newline ++ _get_amz_date now ++ newline
                    ++ (_get_date_stamp now ++ "/" ++ REGION ++ "/"
                          ++ SERVICE ++ "/aws4_request") ++ newline)
                 ++ hex (SHA256.digest
                           (encode (canonical_of method uri query_params
                                      payload hs)))).
  { unfold string_to_sign_of, join. cbn [String.concat].
    now rewrite !append_assoc. }
  rewrite <- Hs. split.
  - reflexivity.
  - unfold authorization_of, signature_of. fold sk.
    rewrite !append_assoc. reflexivity.
Qed.

Lemma returned_call_digest_chain_witness :
  exists authorization w',
    generate_authorization_header test_node test_now "GET"
      "https://cv.byteplusapi.com/path" [] "" (World [] [])
    = (Return authorization, w')
    /\ exists (canonical_head string_to_sign_head header_head : str)
              (k0 d0 d1 d2 : bytes),
         let canonical_request :=
           canonical_head ++ hex (SHA256.digest (encode "")) in
         let string_to_sign :=
           string_to_sign_head
             ++ hex (SHA256.digest (encode canonical_request)) in
         let k1 := HMAC.digest k0 d0 in
         let k2 := HMAC.digest k1 d1 in
         let k3 := HMAC.digest k2 d2 in
         let k4 := HMAC.digest k3 aws4_request in
         hash_log w'
         = (hash_log (World [] [])
              ++ [ Sha256Call (encode "");
                   Sha256Call (encode canonical_request);
                   HmacCall k0 d0; HmacCall k1 d1; HmacCall k2 d2;
                   HmacCall k3 aws4_request;
                   HmacCall k4 (encode string_to_sign) ])%list
         /\ authorization
            = header_head ++ "Signature="
                ++ hex (HMAC.digest k4 (encode string_to_sign)).
Proof.
  assert (H : generate_authorization_header test_node test_now "GET"
                "https://cv.byteplusapi.com/path" [] "" (World [] [])
              = (Return
                   "HMAC-SHA256 Credential=AKID/20240101/ap-singapore-1/cv/request, SignedHeaders=host;x-amz-date, Signature=787369831c724f28680568a187fb39d6d9b56db2ab9a2ce568ed995ffdf3e30b",
                 snd (generate_authorization_header test_node test_now "GET"
                        "https://cv.byteplusapi.com/path" [] ""
                        (World [] [])))).
  { vm_compute. reflexivity. }
  eexists. eexists. split; [exact H|].
  exact (returned_call_digest_chain _ _ _ _ _ _ _ _ _ H).
Defined.

(** A returned call on any world. *)
Lemma returned_world
  (self : OmniHumanNode) (now : datetime) (method uri : str)
  (query_params : dict) (payload : str) (w w' : world) (authorization : str) :
  generate_authorization_header self now method uri query_params payload w
  = (Return authorization, w') ->
  exists after,
    falsy (secret_access_key self) || falsy (access_key_id self) = false
    /\ nth_error (split "://" uri) 1 = Some after
    /\ headers w' = injected now after (headers w)
    /\ authorization
       = authorization_of self now (signed_names (headers w'))
           (signature_of self now
              (canonical_of method uri query_params payload (headers w'))).
Proof.
  rewrite generate_authorization_header_run.
  destruct (falsy (secret_access_key self) || falsy (access_key_id self));
    [discriminate|].
  destruct (nth_error (split "://" uri) 1) as [after|]; [|discriminate].
  cbn zeta. intros [= <- <-]. exists after. cbn [headers].
  repeat split; reflexivity.
Qed.

(** X7: a call that returns keeps every entry of the caller's mapping other
    than [host] and [x-amz-date], sets [x-amz-date] to the time stamp, keeps
    the keys in their order and adds at most those two at the end, and keeps
    the keys pairwise different. *)
Theorem returned_call_header_frame
  (self : OmniHumanNode) (now : datetime) (method uri : str)
  (query_params : dict) (payload : str) (w w' : world) (authorization : str) :
  generate_authorization_header self now method uri query_params payload w
  = (Return authorization, w') ->
  (forall k, k <> "host" -> k <> "x-amz-date" ->
             dict_get k (headers w') = dict_get k (headers w))
  /\ dict_get "x-amz-date" (headers w') = Some (_get_amz_date now)
  /\ (exists extra,
        map fst (headers w') = (map fst (headers w) ++ extra)%list
        /\ (extra = [] \/ extra = ["host"] \/ extra = ["x-amz-date"]
            \/ extra = ["host"; "x-amz-date"]))
  /\ (wf_dict (headers w) -> wf_dict (headers w')).
Proof.
  intros Hcall.
  destruct (returned_world _ _ _ _ _ _ _ _ _ Hcall)
    as (after & _ & _ & -> & _).
  unfold injected. repeat split.
  - intros k Hh Hd. now rewrite !dict_get_setitem_other by congruence.
  - apply dict_get_setitem.
  - destruct (setitem_keys_ext "host" (fst (split_from "/" 0 after))
                (headers w)) as (e1 & H1 & C1).
    destruct (setitem_keys_ext "x-amz-date" (_get_amz_date now)
                (setitem "host" (fst (split_from "/" 0 after)) (headers w)))
      as (e2 & H2 & C2).
    exists (e1 ++ e2)%list. rewrite H2, H1, <- app_assoc.
    split; [reflexivity|].
    destruct C1 as [-> | ->], C2 as [-> | ->]; simpl; tauto.
  - intros Hwf. now apply setitem_wf, setitem_wf.
Qed.

Lemma returned_call_header_frame_witness :
  exists authorization w',
    generate_authorization_header test_node test_now "GET"
      "https://cv.byteplusapi.com/path" [] ""
      (World [("host", "stale"); ("B", "1")] [])
    = (Return authorization, w')
    /\ dict_get "B" (headers w') = Some "1"
    /\ dict_get "x-amz-date" (headers w') = Some "20240101T000000Z".
Proof.
  assert (H : generate_authorization_header test_node test_now "GET"
                "https://cv.byteplusapi.com/path" [] ""
                (World [("host", "stale"); ("B", "1")] [])
              = (Return
                   "HMAC-SHA256 Credential=AKID/20240101/ap-singapore-1/cv/request, SignedHeaders=b;host;x-amz-date, Signature=1704ea225ac9fbcd65dd606fb5655b9e7e4496de2be86badf9829cd2467a8543",
                 snd (generate_authorization_header test_node test_now "GET"
                        "https://cv.byteplusapi.com/path" [] ""
                        (World [("host", "stale"); ("B", "1")] [])))).
  { vm_compute. reflexivity. }
  eexists. eexists. split; [exact H|].
  destruct (returned_call_header_frame _ _ _ _ _ _ _ _ _ H)
    as (Hk & Hd & _ & _).
  split; [|exact Hd].
  rewrite (Hk "B"); [reflexivity | discriminate | discriminate].
Defined.

(** X8: signing again at the same instant, with the mapping the first call
    left, changes the mapping no further and returns the same header. *)
Theorem signing_again_is_stable
  (self : OmniHumanNode) (now : datetime) (method uri : str)
  (query_params : dict) (payload : str) (w w' : world) (authorization : str) :
  generate_authorization_header self now method uri query_params payload w
  = (Return authorization, w') ->
  exists w'',
    generate_authorization_header self now method uri query_params payload w'
    = (Return authorization, w'')
    /\ headers w'' = headers w'.
Proof.
  intros Hcall.
  destruct (returned_world _ _ _ _ _ _ _ _ _ Hcall)
    as (after & G & Hs & Hh & Ha).
  rewrite generate_authorization_header_run, G, Hs. cbn zeta.
  rewrite Hh, injected_again, <- Hh. rewrite <- Ha.
  eexists. split; reflexivity.
Qed.

Lemma signing_again_is_stable_witness :
  exists authorization w' w'',
    generate_authorization_header test_node test_now "GET"
      "https://cv.byteplusapi.com/path" [] "" (World [("B", "1")] [])
    = (Return authorization, w')
    /\ generate_authorization_header test_node test_now "GET"
         "https://cv.byteplusapi.com/path" [] "" w'
       = (Return authorization, w'')
    /\ headers w'' = headers w'.
Proof.
  assert (H : generate_authorization_header test_node test_now "GET"
                "https://cv.byteplusapi.com/path" [] ""
                (World [("B", "1")] [])
              = (Return
                   "HMAC-SHA256 Credential=AKID/20240101/ap-singapore-1/cv/request, SignedHeaders=b;host;x-amz-date, Signature=1704ea225ac9fbcd65dd606fb5655b9e7e4496de2be86badf9829cd2467a8543",
                 snd (generate_authorization_header test_node test_now "GET"
                        "https://cv.byteplusapi.com/path" [] ""
                        (World [("B", "1")] [])))).
  { vm_compute. reflexivity. }
  destruct (signing_again_is_stable _ _ _ _ _ _ _ _ _ H) as (w'' & H2 & H3).
  eexists. eexists. exists w''. split; [exact H|]. split; assumption.
Defined.

Lemma in_signed_names (k : str) (hs : dict) :
  In k (map fst hs) -> In (lower k) (signed_names hs).
Proof.
  intros Hin. rewrite signed_names_sorted.
  apply (Permutation_in (l := map (fun kv => lower (fst kv)) hs)).
  - symmetry. apply sorted_perm.
  - apply in_map_iff in Hin. destruct Hin as (kv & <- & Hkv).
    apply in_map_iff. now exists kv.
Qed.

Lemma in_keys_setitem (k k' v : str) (d : dict) :
  In k (map fst d) -> In k (map fst (setitem k' v d)).
Proof.
  intros Hin. destruct (setitem_keys_ext k' v d) as (e & -> & _).
  apply in_or_app. now left.
Qed.

Lemma key_set (k v : str) (d : dict) : In k (map fst (setitem k v d)).
Proof.
  induction d as [|[k' v'] d IH]; simpl; [now left|].
  destruct (String.eqb_spec k' k) as [E|N]; simpl; [now left | now right].
Qed.

Lemma authorization_fields (self : OmniHumanNode) (now : datetime)
  (names : list str) (signature : bytes) :
  authorization_of self now names signature
  = ("HMAC-SHA256 Credential=" ++ str_value (access_key_id self) ++ "/"
       ++ _get_date_stamp now ++ "/" ++ REGION ++ "/" ++ SERVICE
       ++ "/request, ")
      ++ "SignedHeaders=" ++ join ";" names ++ ", Signature="
      ++ hex signature.
Proof. unfold authorization_of. rewrite !append_assoc. reflexivity. Qed.

(** X9: the [SignedHeaders=] field of every returned header names both
    [host] and [x-amz-date]. *)
Theorem host_and_date_are_signed
  (self : OmniHumanNode) (now : datetime) (method uri : str)
  (query_params : dict) (payload : str) (w w' : world) (authorization : str) :
  generate_authorization_header self now method uri query_params payload w
  = (Return authorization, w') ->
  exists (head : str) (names : list str) (signature : str),
    authorization
    = head ++ "SignedHeaders=" ++ join ";" names ++ ", Signature="
        ++ signature
    /\ In "host" names /\ In "x-amz-date" names.
Proof.
  intros Hcall.
  destruct (returned_world _ _ _ _ _ _ _ _ _ Hcall)
    as (after & _ & _ & Hh & ->).
  rewrite authorization_fields.
  eexists. exists (signed_names (headers w')). eexists.
  split; [reflexivity|]. rewrite Hh. unfold injected. split.
  - apply (in_signed_names "host"). apply in_keys_setitem, key_set.
  - apply (in_signed_names "x-amz-date"). apply key_set.
Qed.

Lemma host_and_date_are_signed_witness :
  exists (head : str) (names : list str) (signature : str),
    "HMAC-SHA256 Credential=AKID/20240101/ap-singapore-1/cv/request, SignedHeaders=a;b;host;x-amz-date, Signature=5a6bc0526c8297b0b808b870b698509064f6ec316fcddd9e5a19b66f3a04bb05"
    = head ++ "SignedHeaders=" ++ join ";" names ++ ", Signature="
        ++ signature
    /\ In "host" names /\ In "x-amz-date" names.
Proof.
  assert (H : generate_authorization_header test_node test_now "GET"
                "https://cv.byteplusapi.com/path" [] ""
                (World [("B", "1"); ("a", "2")] [])
              = (Return "HMAC-SHA256 Credential=AKID/20240101/ap-singapore-1/cv/request, SignedHeaders=a;b;host;x-amz-date, Signature=5a6bc0526c8297b0b808b870b698509064f6ec316fcddd9e5a19b66f3a04bb05",
                 snd (generate_authorization_header test_node test_now "GET"
                        "https://cv.byteplusapi.com/path" [] ""
                        (World [("B", "1"); ("a", "2")] [])))).
  { vm_compute. reflexivity. }
  exact (host_and_date_are_signed _ _ _ _ _ _ _ _ _ H).
Defined.

Lemma count_two_preimages (a b y : str) (l : list str) :
  In a l -> In b l -> a <> b -> lower a = y -> lower b = y ->
  2 <= count_occ string_dec (map lower l) y.
Proof.
  intros Ha Hb Hne Hla Hlb.
  assert (Hone : forall c l', In c l' -> lower c = y ->
                   1 <= count_occ string_dec (map lower l') y).
  { intros c l' Hc Hlc. induction l' as [|x l' IH]; [contradiction|].
    simpl. destruct (string_dec (lower x) y); [lia|].
    destruct Hc as [->|Hc]; [contradiction | auto]. }
  induction l as [|x l IH]; [contradiction|].
  simpl. destruct Ha as [->|Ha], Hb as [->|Hb].
  - contradiction.
  - destruct (string_dec (lower a) y); [|contradiction].
    specialize (Hone b l Hb Hlb). lia.
  - destruct (string_dec (lower b) y); [|contradiction].
    specialize (Hone a l Ha Hla). lia.
  - specialize (IH Ha Hb). destruct (string_dec (lower x) y); lia.
Qed.

(** X10: header names are told apart by case in the mapping but not in the
    signed list: when the caller's mapping has a key other than [host] whose
    lower-cased form is [host], such as [Host], a returned header names
    [host] at least twice in [SignedHeaders=]. *)
Theorem host_in_another_case_is_signed_twice
  (self : OmniHumanNode) (now : datetime) (method uri : str)
  (query_params : dict) (payload : str) (w w' : world) (authorization : str)
  (k : str) :
  In k (map fst (headers w)) -> k <> "host" -> lower k = "host" ->
  generate_authorization_header self now method uri query_params payload w
  = (Return authorization, w') ->
  exists (head : str) (names : list str) (signature : str),
    authorization
    = head ++ "SignedHeaders=" ++ join ";" names ++ ", Signature="
        ++ signature
    /\ 2 <= count_occ string_dec names "host"
    /\ In k (map fst (headers w')) /\ In "host" (map fst (headers w')).
Proof.
  intros Hin Hne Hlow Hcall.
  destruct (returned_world _ _ _ _ _ _ _ _ _ Hcall)
    as (after & _ & _ & Hh & ->).
  rewrite authorization_fields.
  eexists. exists (signed_names (headers w')). eexists.
  split; [reflexivity|].
  assert (Hk : In k (map fst (headers w'))).
  { rewrite Hh. unfold injected. now apply in_keys_setitem, in_keys_setitem. }
  assert (Hhost : In "host" (map fst (headers w'))).
  { rewrite Hh. unfold injected. apply in_keys_setitem, key_set. }
  split; [|split; assumption].
  rewrite signed_names_sorted.
  rewrite (proj1 (Permutation_count_occ string_dec _ _)
             (sorted_perm str_lt
                (map (fun kv => lower (fst kv)) (headers w')))).
  rewrite <- (map_map fst lower).
  now apply (count_two_preimages k "host").
Qed.

Lemma host_in_another_case_is_signed_twice_witness :
  exists (head : str) (names : list str) (signature : str),
    "HMAC-SHA256 Credential=AKID/20240101/ap-singapore-1/cv/request, SignedHeaders=host;host;x-amz-date, Signature=e4f5d5598a7605b80f1b0bfebf5d02b1b7b907b9e2ebd5acc0cc72548339387c"
    = head ++ "SignedHeaders=" ++ join ";" names ++ ", Signature="
        ++ signature
    /\ 2 <= count_occ string_dec names "host".
Proof.
  assert (H : generate_authorization_header test_node test_now "GET"
                "https://cv.byteplusapi.com/path" [] ""
                (World [("Host", "example.org")] [])
              = (Return "HMAC-SHA256 Credential=AKID/20240101/ap-singapore-1/cv/request, SignedHeaders=host;host;x-amz-date, Signature=e4f5d5598a7605b80f1b0bfebf5d02b1b7b907b9e2ebd5acc0cc72548339387c",
                 snd (generate_authorization_header test_node test_now "GET"
                        "https://cv.byteplusapi.com/path" [] ""
                        (World [("Host", "example.org")] [])))).
  { vm_compute. reflexivity. }
  assert (Hin : In "Host"
                  (map fst (headers (World [("Host", "example.org")] []))))
    by (now left).
  assert (Hne : "Host" <> "host") by discriminate.
  assert (Hlow : lower "Host" = "host") by reflexivity.
  destruct (host_in_another_case_is_signed_twice _ _ _ _ _ _ _ _ _ _
              Hin Hne Hlow H)
    as (head & names & signature & Ha & Hc & _).
  exists head, names, signature. split; assumption.
Defined.

(** X11: the access key enters no digest. Two nodes with the same secret
    and two non-empty access keys leave the same mapping and compute the
    same digests on the same request, and their headers differ only in the
    access key written after [Credential=]. *)
Theorem access_key_is_not_signed
  (access_key access_key' : str) (secret : option str) (now : datetime)
  (method uri : str) (query_params : dict) (payload : str) (w : world) :
  access_key <> "" -> access_key' <> "" ->
  let run key :=
    generate_authorization_header (Node (Some key) secret) now method uri
      query_params payload w in
  snd (run access_key) = snd (run access_key')
  /\ forall authorization w',
       run access_key = (Return authorization, w') ->
       exists rest,
         authorization = "HMAC-SHA256 Credential=" ++ access_key ++ rest
         /\ run access_key'
            = (Return ("HMAC-SHA256 Credential=" ++ access_key' ++ rest), w').
Proof.
  intros Ha Ha'. cbn beta zeta. rewrite !generate_authorization_header_run.
  cbn [secret_access_key access_key_id falsy].
  apply String.eqb_neq in Ha, Ha'. rewrite Ha, Ha'.
  destruct (falsy secret || false); [split; [reflexivity | discriminate]|].
  destruct (nth_error (split "://" uri) 1) as [after|];
    [|split; [reflexivity | discriminate]].
  cbn zeta. split; [reflexivity|].
  intros authorization w' [= <- <-].
  eexists. unfold authorization_of, signature_of.
  cbn [access_key_id secret_access_key str_value].
  split; reflexivity.
Qed.

Lemma access_key_is_not_signed_witness :
  "AKID" <> "" /\ "OTHER" <> ""
  /\ snd (generate_authorization_header (Node (Some "AKID") (Some "s"))
            test_now "GET" "https://cv.byteplusapi.com/path" [] ""
            (World [] []))
     = snd (generate_authorization_header (Node (Some "OTHER") (Some "s"))
              test_now "GET" "https://cv.byteplusapi.com/path" [] ""
              (World [] [])).
Proof.
  assert (H1 : "AKID" <> "") by discriminate.
  assert (H2 : "OTHER" <> "") by discriminate.
  split; [exact H1|]. split; [exact H2|].
  exact (proj1 (access_key_is_not_signed "AKID" "OTHER" (Some "s") test_now
                  "GET" "https://cv.byteplusapi.com/path" [] "" (World [] [])
                  H1 H2)).
Defined.

(** ** [bytes.hex()] *)

Lemma hex_byte_chars (b : byte) :
  all_chars is_lower_hex (hex_byte "0123456789abcdef" (Z_of_byte b)) = true.
Proof. destruct b; vm_compute; reflexivity. Qed.

Lemma all_chars_append (p : ascii -> bool) (a b : str) :
  all_chars p (a ++ b) = all_chars p a && all_chars p b.
Proof.
  induction a as [|c a IH]; simpl; [reflexivity|].
  now rewrite IH, andb_assoc.
Qed.

Lemma hex_chars (bs : bytes) : all_chars is_lower_hex (hex bs) = true.
Proof.
  induction bs as [|b bs IH]; [reflexivity|].
  cbn [hex]. now rewrite all_chars_append, hex_byte_chars, IH.
Qed.

Lemma hex_length (bs : bytes) : String.length (hex bs) = 2 * List.length bs.
Proof.
  induction bs as [|b bs IH]; [reflexivity|].
  cbn [hex]. unfold hex_byte. cbn [append String.length List.length].
  rewrite IH. lia.
Qed.

Lemma authorization_signature (self : OmniHumanNode) (now : datetime)
  (names : list str) (signature : bytes) :
  authorization_of self now names signature
  = ("HMAC-SHA256 Credential=" ++ str_value (access_key_id self) ++ "/"
       ++ _get_date_stamp now ++ "/" ++ REGION ++ "/" ++ SERVICE
       ++ "/request, SignedHeaders=" ++ join ";" names ++ ", ")
      ++ "Signature=" ++ hex signature.
Proof.
  unfold authorization_of. generalize (hex signature). intros h.
  rewrite !append_assoc. reflexivity.
Qed.

(** X12: the signature of every returned header is the text after the last
    field name [Signature=]: 64 characters, each a decimal digit or a small
    letter from [a] to [f]. *)
Theorem signature_is_64_hex_digits
  (self : OmniHumanNode) (now : datetime) (method uri : str)
  (query_params : dict) (payload : str) (w w' : world) (authorization : str) :
  generate_authorization_header self now method uri query_params payload w
  = (Return authorization, w') ->
  exists head signature,
    authorization = head ++ "Signature=" ++ signature
    /\ String.length signature = 64
    /\ all_chars is_lower_hex signature = true.
Proof.
  intros Hcall.
  destruct (returned_world _ _ _ _ _ _ _ _ _ Hcall)
    as (after & _ & _ & _ & ->).
  rewrite authorization_signature.
  eexists. eexists. split; [reflexivity|].
  split; [|apply hex_chars].
  rewrite hex_length. unfold signature_of.
  rewrite hmac_digest_length. reflexivity.
Qed.

Lemma signature_is_64_hex_digits_witness :
  exists head signature,
    "HMAC-SHA256 Credential=AKID/20240101/ap-singapore-1/cv/request, SignedHeaders=host;x-amz-date, Signature=787369831c724f28680568a187fb39d6d9b56db2ab9a2ce568ed995ffdf3e30b"
    = head ++ "Signature=" ++ signature
    /\ String.length signature = 64
    /\ all_chars is_lower_hex signature = true.
Proof.
  assert (H : generate_authorization_header test_node test_now "GET"
                "https://cv.byteplusapi.com/path" [] "" (World [] [])
              = (Return "HMAC-SHA256 Credential=AKID/20240101/ap-singapore-1/cv/request, SignedHeaders=host;x-amz-date, Signature=787369831c724f28680568a187fb39d6d9b56db2ab9a2ce568ed995ffdf3e30b",
                 snd (generate_authorization_header test_node test_now "GET"
                        "https://cv.byteplusapi.com/path" [] ""
                        (World [] [])))).
  { vm_compute. reflexivity. }
  exact (signature_is_64_hex_digits _ _ _ _ _ _ _ _ _ H).
Defined.

(** ** Time stamps *)

Lemma ord_chr (z : Z) : (0 <= z < 256)%Z -> ord (chr z) = z.
Proof.
  intros Hz. unfold ord, chr.
  rewrite N_ascii_embedding by lia. lia.
Qed.

Lemma dec_length (width n : nat) : String.length (dec width n) = width.
Proof. induction width as [|w IH]; simpl; [reflexivity | now rewrite IH]. Qed.

(** Reading a field back gives the number it was written from, up to the
    width of the field. *)
Lemma undec_dec (width n : nat) : undec (dec width n) = n mod 10 ^ width.
Proof.
  induction width as [|w IH].
  - cbn [dec undec]. rewrite Nat.pow_0_r. symmetry. apply Nat.mod_1_r.
  - cbn [dec undec]. rewrite dec_length, IH.
    assert (Hd : n / 10 ^ w mod 10 < 10) by (apply Nat.mod_upper_bound; lia).
    rewrite ord_chr by lia.
    replace (Z.to_nat (48 + Z.of_nat (n / 10 ^ w mod 10)) - 48)
      with (n / 10 ^ w mod 10) by lia.
    rewrite Nat.pow_succ_r', (Nat.mul_comm 10), Nat.Div0.mod_mul_r. lia.
Qed.

Lemma dec_inj (width n m : nat) :
  n < 10 ^ width -> m < 10 ^ width -> dec width n = dec width m -> n = m.
Proof.
  intros Hn Hm H. apply (f_equal undec) in H.
  rewrite !undec_dec, !Nat.mod_small in H by assumption. exact H.
Qed.

Lemma append_inj_length (a a' b b' : str) :
  String.length a = String.length a' -> a ++ b = a' ++ b' ->
  a = a' /\ b = b'.
Proof.
  revert a'. induction a as [|c a IH]; intros [|c' a'] Hl H;
    simpl in *; try discriminate.
  - now split.
  - injection H as -> H. injection Hl as Hl.
    destruct (IH a' Hl H) as [-> ->]. now split.
Qed.

Lemma length_append (a b : str) :
  String.length (a ++ b) = String.length a + String.length b.
Proof. induction a as [|x a IH]; simpl; [reflexivity | now rewrite IH]. Qed.

Lemma undec_append (s t : str) :
  undec (s ++ t) = undec s * 10 ^ String.length t + undec t.
Proof.
  induction s as [|x s IH]; [reflexivity|].
  cbn [append undec]. rewrite IH, length_append, Nat.pow_add_r. nia.
Qed.

(** X13: for a date and time with a four-digit year, [x-amz-date] is the
    eight characters of the date stamp, [T], six characters of time and
    [Z], so the date of the credential scope is always the date of the
    header; read as numbers, the stamp is [year month day] and the time
    [hour minute second], two digits each after the year. *)
Theorem amz_date_extends_date_stamp (dt : datetime) :
  valid_datetime dt ->
  exists time,
    _get_amz_date dt = _get_date_stamp dt ++ "T" ++ time ++ "Z"
    /\ String.length (_get_date_stamp dt) = 8
    /\ String.length time = 6
    /\ undec (_get_date_stamp dt)
       = year dt * (100 * 100) + month dt * 100 + day dt
    /\ undec time = hour dt * (100 * 100) + minute dt * 100 + second dt.
Proof.
  intros (Hy & Hmo & Hd & Hh & Hmi & Hs).
  destruct Hy as [_ Hy].
  exists (dec 2 (hour dt) ++ dec 2 (minute dt) ++ dec 2 (second dt)).
  unfold _get_amz_date, _get_date_stamp.
  split; [now rewrite !append_assoc|].
  rewrite !length_append, !dec_length.
  split; [reflexivity|]. split; [reflexivity|].
  rewrite !undec_append, !length_append, !dec_length, !undec_dec.
  rewrite (Nat.mod_small (year dt)) by exact Hy.
  change (10 ^ 2) with 100. change (10 ^ (2 + 2)) with (100 * 100).
  rewrite !Nat.mod_small by lia.
  split; lia.
Qed.

Lemma amz_date_extends_date_stamp_witness :
  valid_datetime test_now
  /\ exists time,
       _get_amz_date test_now = _get_date_stamp test_now ++ "T" ++ time ++ "Z"
       /\ String.length (_get_date_stamp test_now) = 8
       /\ String.length time = 6
       /\ undec (_get_date_stamp test_now)
          = year test_now * (100 * 100) + month test_now * 100 + day test_now
       /\ undec time
          = hour test_now * (100 * 100) + minute test_now * 100
            + second test_now.
Proof.
  assert (Hv : valid_datetime test_now).
  { unfold valid_datetime, test_now.
    cbn [year month day hour minute second].
    assert (H3 : 10 ^ 3 <= 2024) by (apply Nat.leb_le; reflexivity).
    assert (H4 : 2024 < 10 ^ 4) by (apply Nat.ltb_lt; reflexivity).
    repeat split; try lia; assumption. }
  split; [exact Hv|]. exact (amz_date_extends_date_stamp test_now Hv).
Defined.

(** X14: two dates and times with four-digit years give the same
    [x-amz-date] exactly when they agree on year, month, day, hour, minute
    and second. The microsecond is not written: values that differ only in
    it give the same text. *)
Theorem amz_date_equal_iff (dt dt' : datetime) :
  valid_datetime dt -> valid_datetime dt' ->
  _get_amz_date dt = _get_amz_date dt'
  <-> year dt = year dt' /\ month dt = month dt' /\ day dt = day dt'
      /\ hour dt = hour dt' /\ minute dt = minute dt'
      /\ second dt = second dt'.
Proof.
  intros (Hy & Hmo & Hd & Hh & Hmi & Hs) (Hy' & Hmo' & Hd' & Hh' & Hmi' & Hs').
  destruct Hy as [_ Hy], Hy' as [_ Hy'].
  assert (H100 : 10 ^ 2 = 100) by reflexivity.
  unfold _get_amz_date. split.
  - intros H.
    apply append_inj_length in H; [|now rewrite !dec_length].
    destruct H as [Ey H].
    apply append_inj_length in H; [|now rewrite !dec_length].
    destruct H as [Emo H].
    apply append_inj_length in H; [|now rewrite !dec_length].
    destruct H as [Ed H].
    apply (append_inj_length "T" "T") in H; [|reflexivity].
    destruct H as [_ H].
    apply append_inj_length in H; [|now rewrite !dec_length].
    destruct H as [Eh H].
    apply append_inj_length in H; [|now rewrite !dec_length].
    destruct H as [Emi H].
    apply append_inj_length in H; [|now rewrite !dec_length].
    destruct H as [Es _].
    apply dec_inj in Ey; [|assumption..].
    apply dec_inj in Emo; [|lia..].
    apply dec_inj in Ed; [|lia..].
    apply dec_inj in Eh; [|lia..].
    apply dec_inj in Emi; [|lia..].
    apply dec_inj in Es; [|lia..].
    repeat split; assumption.
  - intros (-> & -> & -> & -> & -> & ->). reflexivity.
Qed.

Lemma amz_date_equal_iff_witness :
  valid_datetime test_now
  /\ valid_datetime (Datetime 2024 1 1 0 0 0 500)
  /\ test_now <> Datetime 2024 1 1 0 0 0 500
  /\ _get_amz_date test_now = _get_amz_date (Datetime 2024 1 1 0 0 0 500).
Proof.
  assert (Hv : forall us, valid_datetime (Datetime 2024 1 1 0 0 0 us)).
  { intros us. unfold valid_datetime.
    cbn [year month day hour minute second].
    assert (H3 : 10 ^ 3 <= 2024) by (apply Nat.leb_le; reflexivity).
    assert (H4 : 2024 < 10 ^ 4) by (apply Nat.ltb_lt; reflexivity).
    repeat split; try lia; assumption. }
  split; [exact (Hv 0)|]. split; [exact (Hv 500)|].
  split; [discriminate|].
  apply (proj2 (amz_date_equal_iff test_now (Datetime 2024 1 1 0 0 0 500)
                  (Hv 0) (Hv 500))).
  repeat split.
Defined.

(** ** The query string can be read back *)

Lemma append_empty_r (a : str) : a ++ "" = a.
Proof. induction a as [|x a IH]; simpl; [reflexivity | now rewrite IH]. Qed.

Lemma concat_empty_cons (x : str) (l : list str) :
  String.concat "" (x :: l) = x ++ String.concat "" l.
Proof. destruct l; simpl; [now rewrite append_empty_r | reflexivity]. Qed.

Lemma unquote_quote_byte (b : byte) (s : str) :
  unquote_to_bytes (quote_byte "" b ++ s) = b :: unquote_to_bytes s.
Proof. destruct b; reflexivity. Qed.

Lemma unquote_quote (s : str) : unquote_to_bytes (quote s "") = encode s.
Proof.
  unfold quote. induction (encode s) as [|b bs IH]; [reflexivity|].
  cbn [map]. now rewrite concat_empty_cons, unquote_quote_byte, IH.
Qed.

Lemma decode_utf8_char (c : ascii) (rest : bytes) :
  decode (utf8_char c ++ rest)%list = String c (decode rest).
Proof. destruct c as [[] [] [] [] [] [] [] []]; reflexivity. Qed.

Lemma decode_encode (s : str) : decode (encode s) = s.
Proof.
  induction s as [|c s IH]; [reflexivity|].
  cbn [encode]. now rewrite decode_utf8_char, IH.
Qed.

Lemma quote_inj (s t : str) : quote s "" = quote t "" -> s = t.
Proof.
  intros H. apply (f_equal unquote_to_bytes) in H.
  rewrite !unquote_quote in H. apply (f_equal decode) in H.
  now rewrite !decode_encode in H.
Qed.

Lemma mem_char_append (c : ascii) (a b : str) :
  mem_char c (a ++ b) = mem_char c a || mem_char c b.
Proof.
  induction a as [|x a IH]; simpl; [reflexivity|].
  now rewrite IH, orb_assoc.
Qed.

Lemma quote_byte_separators (b : byte) :
  mem_char "&" (quote_byte "" b) = false
  /\ mem_char "=" (quote_byte "" b) = false.
Proof. destruct b; split; reflexivity. Qed.

Lemma quote_separators (s : str) :
  mem_char "&" (quote s "") = false /\ mem_char "=" (quote s "") = false.
Proof.
  unfold quote. induction (encode s) as [|b bs [IH1 IH2]];
    [split; reflexivity|].
  cbn [map]. rewrite concat_empty_cons, !mem_char_append, IH1, IH2.
  destruct (quote_byte_separators b) as [-> ->]. split; reflexivity.
Qed.

Lemma append_sep_inj (c : ascii) (a a' b b' : str) :
  mem_char c a = false -> mem_char c a' = false ->
  a ++ String c b = a' ++ String c b' -> a = a' /\ b = b'.
Proof.
  revert a'. induction a as [|x a IH]; intros [|x' a'] Ha Ha' H.
  - injection H as ->. now split.
  - cbn [append] in H. injection H as <- _.
    apply mem_char_cons in Ha'. now destruct Ha'.
  - cbn [append] in H. injection H as -> _.
    apply mem_char_cons in Ha. now destruct Ha.
  - cbn [append] in H. injection H as -> H.
    apply mem_char_cons in Ha, Ha'.
    destruct (IH a' (proj2 Ha) (proj2 Ha') H) as [-> ->]. now split.
Qed.

Lemma query_pair_inj (kv kv' : str * str) :
  query_pair kv = query_pair kv' -> kv = kv'.
Proof.
  unfold query_pair. intros H.
  change (quote (fst kv) "" ++ String "=" (quote (snd kv) "")
          = quote (fst kv') "" ++ String "=" (quote (snd kv') "")) in H.
  apply append_sep_inj in H; try apply quote_separators.
  destruct H as [Hk Hv]. apply quote_inj in Hk, Hv.
  destruct kv, kv'. simpl in *. congruence.
Qed.

Lemma query_pair_shape (kv : str * str) :
  mem_char "&" (query_pair kv) = false /\ query_pair kv <> "".
Proof.
  unfold query_pair. split.
  - rewrite !mem_char_append.
    destruct (quote_separators (fst kv)) as [-> _].
    destruct (quote_separators (snd kv)) as [-> _]. reflexivity.
  - destruct (quote (fst kv) ""); discriminate.
Qed.

Lemma join_pieces_inj (l l' : list str) :
  Forall piece l -> Forall piece l' -> join "&" l = join "&" l' -> l = l'.
Proof.
  unfold join. revert l'.
  induction l as [|x l IH]; intros l' Hl Hl' H.
  - destruct l' as [|y [|z l']]; [reflexivity| |].
    + inversion Hl' as [|? ? [_ Hy] _]; subst. simpl in H. congruence.
    + inversion Hl' as [|? ? [_ Hy] _]; subst. simpl in H.
      destruct y; [congruence | discriminate].
  - inversion Hl as [|? ? [Hx Hxn] Hl2]; subst.
    destruct l' as [|y l'].
    + destruct l; simpl in H; [congruence|].
      destruct x; [congruence | discriminate].
    + inversion Hl' as [|? ? [Hy Hyn] Hl2']; subst.
      destruct l as [|x2 l], l' as [|y2 l'].
      * simpl in H. now subst.
      * exfalso. cbn [String.concat] in H.
        change (x = y ++ String "&" (String.concat "&" (y2 :: l'))) in H.
        rewrite H, mem_char_append in Hx. cbn [mem_char] in Hx.
        rewrite Ascii.eqb_refl, orb_true_r in Hx. discriminate.
      * exfalso. cbn [String.concat] in H.
        change (x ++ String "&" (String.concat "&" (x2 :: l)) = y) in H.
        rewrite <- H, mem_char_append in Hy. cbn [mem_char] in Hy.
        rewrite Ascii.eqb_refl, orb_true_r in Hy. discriminate.
      * cbn [String.concat] in H.
        change (x ++ String "&" (String.concat "&" (x2 :: l))
                = y ++ String "&" (String.concat "&" (y2 :: l'))) in H.
        apply append_sep_inj in H; [|assumption..].
        destruct H as [-> H]. f_equal. now apply IH.
Qed.

Lemma map_query_pair_inj (l l' : list (str * str)) :
  map query_pair l = map query_pair l' -> l = l'.
Proof.
  revert l'. induction l as [|x l IH]; intros [|y l'] H;
    try discriminate; [reflexivity|].
  injection H as Hx H. apply query_pair_inj in Hx. subst. f_equal. auto.
Qed.

(** X15: the query string determines the query parameters: two mappings
    whose query strings are equal hold the same items. Neither [&] nor [=]
    occurs in an encoded key or value, so the string splits back into its
    pairs, and the percent-encoding is undone by decoding. *)
Theorem query_string_determines_items (query_params query_params' : dict) :
  join "&" (map query_pair (sorted tuple_lt (items query_params)))
  = join "&" (map query_pair (sorted tuple_lt (items query_params'))) ->
  Permutation query_params query_params'.
Proof.
  intros H. apply join_pieces_inj in H.
  - apply map_query_pair_inj in H.
    transitivity (sorted tuple_lt (items query_params)).
    + symmetry. apply sorted_perm.
    + rewrite H. apply sorted_perm.
  - apply Forall_forall. intros s Hs. apply in_map_iff in Hs.
    destruct Hs as (kv & <- & _). apply query_pair_shape.
  - apply Forall_forall. intros s Hs. apply in_map_iff in Hs.
    destruct Hs as (kv & <- & _). apply query_pair_shape.
Qed.

Lemma query_string_determines_items_witness :
  join "&" (map query_pair (sorted tuple_lt (items [("b", "2"); ("a", "1 /")])))
  = join "&" (map query_pair (sorted tuple_lt (items [("a", "1 /"); ("b", "2")])))
  /\ Permutation [("b", "2"); ("a", "1 /")] [("a", "1 /"); ("b", "2")].
Proof.
  assert (H : join "&" (map query_pair
                          (sorted tuple_lt (items [("b", "2"); ("a", "1 /")])))
              = join "&" (map query_pair
                            (sorted tuple_lt
                               (items [("a", "1 /"); ("b", "2")]))))
    by reflexivity.
  split; [exact H|].
  exact (query_string_determines_items _ _ H).
Defined.

(** ** What the canonical request does not tell apart *)

Lemma setitem_related (k v : str) (d d' : dict) :
  Forall2 same_up_to_strip d d' ->
  Forall2 same_up_to_strip (setitem k v d) (setitem k v d').
Proof.
  induction 1 as [|[k1 v1] [k2 v2] d d' [Hk Hv] Hd IH]; simpl.
  - constructor; [split; reflexivity | constructor].
  - simpl in Hk. subst k2. destruct (String.eqb k1 k).
    + constructor; [split; reflexivity | assumption].
    + constructor; [split; [reflexivity | assumption] | exact IH].
Qed.

Lemma related_keys (d d' : dict) :
  Forall2 same_up_to_strip d d' -> map fst d = map fst d'.
Proof.
  induction 1 as [|a b d d' [Hk _] _ IH]; simpl; [reflexivity|].
  now rewrite Hk, IH.
Qed.

Lemma tuple_lt_other_key (a b : str * str) :
  fst a <> fst b -> tuple_lt a b = str_lt (fst a) (fst b).
Proof.
  intros H. unfold tuple_lt. now destruct (String.eqb_spec (fst a) (fst b)).
Qed.

Lemma insert_related (a b : str * str) (l l' : dict) :
  same_up_to_strip a b -> Forall2 same_up_to_strip l l' ->
  ~ In (fst a) (map fst l) ->
  Forall2 same_up_to_strip (insert tuple_lt a l) (insert tuple_lt b l').
Proof.
  intros Hab Hl. induction Hl as [|x y l l' Hxy Hl IH]; intros Hn; simpl.
  - constructor; [exact Hab | constructor].
  - assert (Hx : fst x <> fst a) by (intros E; apply Hn; now left).
    assert (Hy : fst y <> fst b).
    { destruct Hab as [<- _], Hxy as [<- _]. exact Hx. }
    rewrite (tuple_lt_other_key x a Hx), (tuple_lt_other_key y b Hy).
    rewrite <- (proj1 Hab), <- (proj1 Hxy).
    destruct (str_lt (fst x) (fst a)).
    + constructor; [exact Hxy|].
      apply IH. intros Hin. apply Hn. now right.
    + constructor; [exact Hab|]. constructor; assumption.
Qed.

Lemma sorted_related (l l' : dict) :
  Forall2 same_up_to_strip l l' -> wf_dict l ->
  Forall2 same_up_to_strip (sorted tuple_lt l) (sorted tuple_lt l').
Proof.
  unfold wf_dict.
  induction 1 as [|a b l l' Hab Hl IH]; intros Hnd; simpl; [constructor|].
  inversion Hnd as [|? ? Hnotin Hnd']; subst.
  apply insert_related; [assumption | now apply IH |].
  intros Hin. apply Hnotin.
  apply (Permutation_in (l := map fst (sorted tuple_lt l))); [|assumption].
  apply Permutation_map, sorted_perm.
Qed.

Lemma related_lines (l l' : dict) :
  Forall2 same_up_to_strip l l' ->
  map header_line l = map header_line l'
  /\ map (fun kv => lower (fst kv)) l = map (fun kv => lower (fst kv)) l'.
Proof.
  induction 1 as [|a b l l' [Hk Hv] _ [IH1 IH2]]; simpl; [now split|].
  unfold header_line at 1 3. now rewrite Hk, Hv, IH1, IH2.
Qed.

(** X16: the white space around a header value is not signed: two calls
    whose header mappings have the same names in the same order, and values
    that are equal once stripped, end the same way and return the same
    header. *)
Theorem value_padding_is_not_signed
  (self : OmniHumanNode) (now : datetime) (method uri : str)
  (query_params : dict) (payload : str) (hs hs' : dict) :
  wf_dict hs ->
  Forall2 (fun a b => fst a = fst b /\ strip (snd a) = strip (snd b)) hs hs' ->
  fst (call (generate_authorization_header self now method uri query_params
               payload) hs)
  = fst (call (generate_authorization_header self now method uri
                 query_params payload) hs').
Proof.
  intros Hwf Hrel. unfold call.
  rewrite !generate_authorization_header_run. cbn [headers hash_log].
  destruct (falsy (secret_access_key self) || falsy (access_key_id self));
    [reflexivity|].
  destruct (nth_error (split "://" uri) 1) as [after|]; [|reflexivity].
  cbn zeta. cbn [fst].
  assert (Hi : Forall2 same_up_to_strip (injected now after hs)
                 (injected now after hs')).
  { unfold injected. now apply setitem_related, setitem_related. }
  assert (Hwi : wf_dict (injected now after hs)).
  { unfold injected. now apply setitem_wf, setitem_wf. }
  assert (Hn : signed_names (injected now after hs)
               = signed_names (injected now after hs')).
  { rewrite !signed_names_sorted. f_equal.
    rewrite <- !(map_map fst lower). f_equal. now apply related_keys. }
  assert (Hc : canonical_of method uri query_params payload
                 (injected now after hs)
               = canonical_of method uri query_params payload
                   (injected now after hs')).
  { unfold canonical_of, _create_canonical_request, items.
    destruct (related_lines _ _ (sorted_related _ _ Hi Hwi)) as [-> ->].
    reflexivity. }
  now rewrite Hn, Hc.
Qed.

Lemma value_padding_is_not_signed_witness :
  wf_dict [("B", "1"); ("a", "2")]
  /\ fst (call (generate_authorization_header test_node test_now "GET"
                  "https://cv.byteplusapi.com/path" [] "")
            [("B", "1"); ("a", "2")])
     = fst (call (generate_authorization_header test_node test_now "GET"
                    "https://cv.byteplusapi.com/path" [] "")
              [("B", " 1 "); ("a", "2  ")]).
Proof.
  assert (Hwf : wf_dict [("B", "1"); ("a", "2")]).
  { repeat constructor; simpl; intuition discriminate. }
  split; [exact Hwf|].
  apply (value_padding_is_not_signed test_node test_now "GET"
           "https://cv.byteplusapi.com/path" [] "" _ _ Hwf).
  constructor; [split; reflexivity|].
  constructor; [split; reflexivity|]. constructor.
Defined.

(** X17: the builder does not escape the newline that separates its
    segments: text moved from the end of the method to the start of the uri,
    across a newline, gives the same canonical request, and so the same
    string to sign. *)
Theorem canonical_request_boundary_is_not_escaped
  (method moved uri query_string : str) (hs : dict) (payload_hash : str) :
  _create_canonical_request (method ++ newline ++ moved) uri query_string hs
    payload_hash
  = _create_canonical_request method (moved ++ newline ++ uri) query_string
      hs payload_hash.
Proof.
  unfold _create_canonical_request. cbn zeta.
  now rewrite !append_assoc.
Qed.

(** ** Lower case *)

Lemma lower_char_idempotent (c : ascii) :
  lower_char (lower_char c) = lower_char c.
Proof. destruct c as [[] [] [] [] [] [] [] []]; reflexivity. Qed.

Lemma lower_idempotent (s : str) : lower (lower s) = lower s.
Proof.
  induction s as [|c s IH]; simpl; [reflexivity|].
  now rewrite lower_char_idempotent, IH.
Qed.

(** X18: every name of the [SignedHeaders=] field of a returned header is in
    lower case, whatever the case of the names in the caller's mapping. *)
Theorem signed_names_are_lower_case
  (self : OmniHumanNode) (now : datetime) (method uri : str)
  (query_params : dict) (payload : str) (w w' : world) (authorization : str) :
  generate_authorization_header self now method uri query_params payload w
  = (Return authorization, w') ->
  exists (head : str) (names : list str) (signature : str),
    authorization
    = head ++ "SignedHeaders=" ++ join ";" names ++ ", Signature="
        ++ signature
    /\ List.length names = List.length (headers w')
    /\ Forall (fun name => lower name = name) names.
Proof.
  intros Hcall.
  destruct (returned_world _ _ _ _ _ _ _ _ _ Hcall)
    as (after & _ & _ & _ & ->).
  rewrite authorization_fields.
  eexists. exists (signed_names (headers w')). eexists.
  split; [reflexivity|]. rewrite signed_names_sorted. split.
  - rewrite (Permutation_length
               (sorted_perm str_lt
                  (map (fun kv => lower (fst kv)) (headers w')))).
    apply length_map.
  - apply Forall_forall. intros n Hn.
    apply (Permutation_in n
             (sorted_perm str_lt
                (map (fun kv => lower (fst kv)) (headers w')))) in Hn.
    apply in_map_iff in Hn.
    destruct Hn as (kv & <- & _). apply lower_idempotent.
Qed.

Lemma signed_names_are_lower_case_witness :
  exists (head : str) (names : list str) (signature : str),
    "HMAC-SHA256 Credential=AKID/20240101/ap-singapore-1/cv/request, SignedHeaders=a;b;host;x-amz-date, Signature=5a6bc0526c8297b0b808b870b698509064f6ec316fcddd9e5a19b66f3a04bb05"
    = head ++ "SignedHeaders=" ++ join ";" names ++ ", Signature="
        ++ signature
    /\ Forall (fun name => lower name = name) names.
Proof.
  assert (H : generate_authorization_header test_node test_now "GET"
                "https://cv.byteplusapi.com/path" [] ""
                (World [("B", "1"); ("a", "2")] [])
              = (Return "HMAC-SHA256 Credential=AKID/20240101/ap-singapore-1/cv/request, SignedHeaders=a;b;host;x-amz-date, Signature=5a6bc0526c8297b0b808b870b698509064f6ec316fcddd9e5a19b66f3a04bb05",
                 snd (generate_authorization_header test_node test_now "GET"
                        "https://cv.byteplusapi.com/path" [] ""
                        (World [("B", "1"); ("a", "2")] [])))).
  { vm_compute. reflexivity. }
  destruct (signed_names_are_lower_case _ _ _ _ _ _ _ _ _ H)
    as (head & names & signature & Ha & _ & Hf).
  exists head, names, signature. split; assumption.
Defined.
